(** * scripts/dev-server.py: auto-reload development server

    A shallow embedding of the two classes of the script, [ReloadHandler]
    (debounced file-watch callback) and [DevServer] (supervisor of one child
    HTTP server process plus the main loop), and of the parts of their
    environment they talk to: the clock, the console, child processes, the
    watchdog observer thread and the SIGINT disposition.

    Python statements become computations in a small state-and-exception
    monad; the object fields become record fields; everything the operating
    system decides (whether [Popen] succeeds, how a child answers SIGTERM,
    whether the watches can be set up, when file events and signals arrive)
    is data held in the state or given as the list of inputs of the main
    loop.  Times are rationals; what [time.time()] returns and what the
    handler computes with it are binary64 numbers, rounded as IEEE 754
    rounds. *)

From Stdlib Require Import QArith Qround Qpower Ascii Lqa.
From stdpp Require Import base gmap strings list.

Open Scope string_scope.

(** ** Strings and paths *)

Module Str.

(** [str.lower()] on the bytes of the string: A-Z go to a-z, every other
    byte is kept.  On the members of the allow-set of the handler this
    agrees with Python's Unicode lowering: the only non-ASCII code point
    that lowers to an ASCII letter is the Kelvin sign (to k), and no
    allowed extension contains a k. *)
Definition lower_ascii (c : ascii) : ascii :=
  let n := N_of_ascii c in
  if ((65 <=? n) && (n <=? 90))%N then ascii_of_N (n + 32) else c.

Fixpoint lower (s : string) : string :=
  match s with
  | EmptyString => EmptyString
  | String c s' => String (lower_ascii c) (lower s')
  end.

(** [s.split(sep)] for a one-character separator. *)
Fixpoint split_on (sep : ascii) (s : string) : list string :=
  match s with
  | EmptyString => [EmptyString]
  | String c s' =>
      if Ascii.eqb c sep then EmptyString :: split_on sep s'
      else match split_on sep s' with
           | [] => [String c EmptyString]
           | w :: ws => String c w :: ws
           end
  end.

(** [s.rfind(c)], with [None] for Python's -1. *)
Fixpoint rfind (c : ascii) (s : string) : option nat :=
  match s with
  | EmptyString => None
  | String d s' =>
      match rfind c s' with
      | Some i => Some (S i)
      | None => if Ascii.eqb d c then Some 0 else None
      end
  end.

End Str.

Module Path.

(** The components pathlib keeps of a POSIX path: empty components and
    single dots are dropped when the path is parsed. *)
Definition parts (p : string) : list string :=
  filter (fun w => w ≠ "" ∧ w ≠ ".") (Str.split_on "/" p).

(** [Path(p).name]: the final component, the empty string if none. *)
Definition name (p : string) : string := List.last (parts p) "".

(** [Path(p).suffix]:
<<
    name = self.name
    i = name.rfind('.')
    if 0 < i < len(name) - 1: return name[i:]
    else: return ''
>>
    [len(name) - 1] is never negative where it matters: [0 < i] already
    gives a name of two characters or more. *)
Definition suffix (p : string) : string :=
  let n := name p in
  match Str.rfind "." n with
  | Some i =>
      if bool_decide (0 < i ∧ i < String.length n - 1)
      then String.substring i (String.length n - i) n
      else ""
  | None => ""
  end.

End Path.

(** ** Exceptions, results and the monad of Python statements *)

Inductive exn : Type :=
| KeyboardInterrupt
| SystemExit (code : Z)
| TimeoutExpired
| OSError (msg : string)
| RuntimeError (msg : string).

(** [isinstance(e, Exception)]: [KeyboardInterrupt] and [SystemExit] derive
    from [BaseException] only, so [except Exception] lets them through. *)
Definition is_Exception (e : exn) : bool :=
  match e with
  | KeyboardInterrupt | SystemExit _ => false
  | TimeoutExpired | OSError _ | RuntimeError _ => true
  end.

(** How a computation ends: with a value, with an exception on its way up,
    or not (yet): [Pending] is a thread blocked for good on the inputs given
    so far, as the main loop is when nothing interrupts it. *)
Inductive result (A : Type) : Type :=
| Done (a : A)
| Raised (e : exn)
| Pending.
Arguments Done {A} a.
Arguments Raised {A} e.
Arguments Pending {A}.

(** State and exceptions.  The state survives an exception: Python mutates
    objects in place, and what was written before a [raise] stays written. *)
Definition M (S A : Type) : Type := S -> result A * S.

Definition ret {S A} (a : A) : M S A := fun s => (Done a, s).

Definition bind {S A B} (m : M S A) (k : A -> M S B) : M S B :=
  fun s =>
    match m s with
    | (Done a, s') => k a s'
    | (Raised e, s') => (Raised e, s')
    | (Pending, s') => (Pending, s')
    end.

Definition raise {S A} (e : exn) : M S A := fun s => (Raised e, s).
Definition gets {S A} (f : S -> A) : M S A := fun s => (Done (f s), s).
Definition modify {S} (f : S -> S) : M S unit := fun s => (Done tt, f s).

(** [try: body except <clause>: handler]; [handler e] is [None] when the
    clause does not match [e], which then keeps propagating. *)
Definition try_except {S A} (body : M S A) (handler : exn -> option (M S A))
  : M S A :=
  fun s =>
    match body s with
    | (Raised e, s') =>
        match handler e with
        | Some h => h s'
        | None => (Raised e, s')
        end
    | r => r
    end.

(** Run a computation on the second component of a paired state. *)
Definition on_snd {H S A} (m : M S A) : M (H * S) A :=
  fun hs =>
    match m (snd hs) with
    | (r, s') => (r, (fst hs, s'))
    end.

(** The statements are sequenced with stdpp's monad notations:
    [x ← m; k] and [m ;; k]. *)
#[global] Instance M_ret {S} : MRet (M S) := fun A => @ret S A.
#[global] Instance M_bind {S} : MBind (M S) := fun A B k m => bind m k.

(** [for x in xs: body x] *)
Fixpoint for_each {S A} (xs : list A) (body : A -> M S unit) : M S unit :=
  match xs with
  | [] => ret tt
  | x :: xs' => body x ;; for_each xs' body
  end.

(** ** Python floats *)

Module Float64.

(** The binary64 numbers, as the rationals they are.  [round] is IEEE 754
    round-to-nearest, ties to even: a number in the binade [2^e, 2^(e+1)) is
    moved to the nearest multiple of [2^(e-52)]; below [2^-1022] the spacing
    stays [2^-1074].  Overflow is left out: the times the script handles are
    far from the largest binary64 number. *)

Definition pow2 (e : Z) : Q := (2 ^ e)%Q.

(** The nearest integer, the even one of two that are equally near. *)
Definition rne (x : Q) : Z :=
  let f := Qfloor x in
  match (x - inject_Z f ?= 1 # 2)%Q with
  | Lt => f
  | Gt => (f + 1)%Z
  | Eq => if Z.even f then f else (f + 1)%Z
  end.

(** For [0 < x], the [e] with [2^e <= x < 2^(e+1)]. *)
Definition binade (x : Q) : Z :=
  let k := (Z.log2 (Qnum x) - Z.log2 (Zpos (Qden x)))%Z in
  if Qle_bool (pow2 k) x then k else (k - 1)%Z.

Definition round (x : Q) : Q :=
  match (x ?= 0)%Q with
  | Eq => 0%Q
  | Gt =>
      let q := pow2 (Z.max (binade x) (-1022) - 52) in
      (inject_Z (rne (x / q)) * q)%Q
  | Lt =>
      let q := pow2 (Z.max (binade (- x)) (-1022) - 52) in
      (- (inject_Z (rne (- x / q)) * q))%Q
  end.

(** [a - b] on floats: the exact difference, rounded. *)
Definition sub (a b : Q) : Q := round (a - b).

Definition is_binary64 (x : Q) : bool := Qeq_bool (round x) x.

End Float64.

(** [a > b] between a float and an int: Python compares the two numbers
    exactly. *)
Definition Qgt_bool (a b : Q) : bool := negb (Qle_bool a b).

(** ** The environment: console, clock, child processes, signals *)

(** The lines the script prints, one constructor per [print] statement. *)
Inductive message : Type :=
| MsgFileChanged (name : string)   (* File changed: {file_path.name} *)
| MsgServerStarted (port : Z)      (* Server started on http://localhost:{port} *)
| MsgFailedToStart (e : exn)       (* Failed to start server: {e} *)
| MsgServerStopped                 (* Server stopped *)
| MsgRestarting                    (* Restarting server... *)
| MsgWatching (path : string)      (* Watching: {path} *)
| MsgBanner                        (* BustAGroove Auto-Reload Development Server *)
| MsgRule                          (* "=" * 50 *)
| MsgServing                       (* Serving files from: {Path.cwd()} *)
| MsgOpen (port : Z)               (* Open: http://localhost:{port} *)
| MsgWatchingChanges               (* Watching for file changes... *)
| MsgPressCtrlC                    (* Press Ctrl+C to stop *)
| MsgBlank                         (* print() *)
| MsgShuttingDown                  (* Shutting down... *)
| MsgDevServerStopped              (* Development server stopped *)
| MsgReceivedInterrupt.            (* Received interrupt signal *)

(** A child process as the script can observe it.  [Terminating] is a
    running process that has been sent SIGTERM; [exit_delay] is how long it
    takes to exit once asked to ([None]: it never does). *)
Inductive proc_status : Type := Running | Terminating | Exited | Killed.

Record child : Type := Child {
  status : proc_status;
  exit_delay : option Q
}.

Definition live (c : child) : bool :=
  match status c with
  | Running | Terminating => true
  | Exited | Killed => false
  end.

(** What [subprocess.Popen] does when asked for a child. *)
Inductive spawn_outcome : Type :=
| Spawned (c : child)
| SpawnError (msg : string).

(** What is installed for SIGINT: Python's default (raise
    [KeyboardInterrupt] in the main thread) or the script's
    [signal_handler]. *)
Inductive sigint_disposition : Type :=
| default_int_handler
| installed_signal_handler.

Record World : Type := mkWorld {
  procs : gmap nat child;          (* children, by Popen handle *)
  popen_calls : nat;               (* Popen calls so far: the next handle *)
  popen_env : nat -> spawn_outcome;(* outcome of the n-th Popen call *)
  clock : Q;                       (* the time, in seconds *)
  console : list message;          (* stdout, oldest line first *)
  on_disk : list string;           (* paths for which Path(p).exists() *)
  sigint : sigint_disposition;
  inotify_error : option string    (* why no watch can be set up, if so *)
}.

Definition set_procs (f : gmap nat child -> gmap nat child) (w : World) :=
  mkWorld (f (procs w)) (popen_calls w) (popen_env w) (clock w) (console w)
          (on_disk w) (sigint w) (inotify_error w).
Definition set_popen_calls (n : nat) (w : World) :=
  mkWorld (procs w) n (popen_env w) (clock w) (console w) (on_disk w)
          (sigint w) (inotify_error w).
Definition set_clock (t : Q) (w : World) :=
  mkWorld (procs w) (popen_calls w) (popen_env w) t (console w) (on_disk w)
          (sigint w) (inotify_error w).
Definition set_console (c : list message) (w : World) :=
  mkWorld (procs w) (popen_calls w) (popen_env w) (clock w) c (on_disk w)
          (sigint w) (inotify_error w).
Definition set_sigint (d : sigint_disposition) (w : World) :=
  mkWorld (procs w) (popen_calls w) (popen_env w) (clock w) (console w)
          (on_disk w) d (inotify_error w).
Definition set_inotify_error (e : option string) (w : World) :=
  mkWorld (procs w) (popen_calls w) (popen_env w) (clock w) (console w)
          (on_disk w) (sigint w) e.

(** ** The objects of the script *)

(** [ReloadHandler]: the callback is a parameter of [on_modified] below,
    the two numbers are the fields set in [__init__]. *)
Record ReloadHandler : Type := mkHandler {
  last_restart : Q;
  debounce_delay : Q
}.

(** watchdog's observer: the handler it was given, the directories it
    watches and the state of its thread. *)
Inductive thread_status : Type :=
| Unstarted | Alive | Crashed | Stopping | Joined.

Record Observer : Type := mkObserver {
  event_handler : ReloadHandler;
  watches : list string;
  thread : thread_status
}.

Record DevServer : Type := mkDevServer {
  port : Z;
  server_process : option nat;
  observer : option Observer
}.

(** The program state: the one [DevServer] object and its environment. *)
Record State : Type := mkState {
  dev : DevServer;
  os : World
}.

Definition set_os (f : World -> World) (s : State) : State :=
  mkState (dev s) (f (os s)).
Definition set_server_process (h : option nat) (s : State) : State :=
  mkState (mkDevServer (port (dev s)) h (observer (dev s))) (os s).
Definition set_observer (o : option Observer) (s : State) : State :=
  mkState (mkDevServer (port (dev s)) (server_process (dev s)) o) (os s).

(** ** Library calls *)

Definition print (m : message) : M State unit :=
  modify (set_os (fun w => set_console (console w ++ [m]) w)).

(** [time.time()]: the time as a float. *)
Definition time_time : M State Q :=
  gets (fun s => Float64.round (clock (os s))).

(** [time.sleep(d)].  The clock moves with the waits of the script only:
    the time the other statements take is not accounted for. *)
Definition time_sleep (d : Q) : M State unit :=
  modify (set_os (fun w => set_clock (clock w + d)%Q w)).

Definition path_exists (p : string) : M State bool :=
  gets (fun s => bool_decide (p ∈ on_disk (os s))).

(** [subprocess.Popen([...])]: the environment decides; a new child gets the
    number of the call as its handle. *)
Definition Popen : M State nat :=
  fun s =>
    let k := popen_calls (os s) in
    match popen_env (os s) k with
    | Spawned c =>
        (Done k, set_os (fun w => set_popen_calls (S k) (set_procs <[k:=c]> w)) s)
    | SpawnError msg =>
        (Raised (OSError msg), set_os (set_popen_calls (S k)) s)
    end.

(** [Popen.terminate()]: SIGTERM, unless the child is already gone. *)
Definition sigterm (c : child) : child :=
  match status c with
  | Running => Child Terminating (exit_delay c)
  | _ => c
  end.

Definition terminate (h : nat) : M State unit :=
  modify (set_os (set_procs (alter sigterm h))).

(** [Popen.kill()]: SIGKILL, unless the child is already gone. *)
Definition sigkill (c : child) : child :=
  match status c with
  | Running | Terminating => Child Killed (exit_delay c)
  | _ => c
  end.

Definition kill (h : nat) : M State unit :=
  modify (set_os (set_procs (alter sigkill h))).

(** [Popen.wait(timeout=t)]: returns when the child has exited, raises
    [TimeoutExpired] after [t] seconds otherwise.  A child that was not
    asked to terminate keeps running.  The clock moves by the time
    waited. *)
Definition wait (h : nat) (timeout : Q) : M State unit :=
  fun s =>
    let expired :=
      (Raised TimeoutExpired,
       set_os (fun w => set_clock (clock w + timeout)%Q w) s) in
    match procs (os s) !! h with
    | None => (Done tt, s)
    | Some c =>
        match status c with
        | Exited | Killed => (Done tt, s)
        | Running => expired
        | Terminating =>
            match exit_delay c with
            | Some d =>
                if Qle_bool d timeout
                then (Done tt,
                      set_os (fun w =>
                        set_clock (clock w + d)%Q
                          (set_procs <[h:=Child Exited (exit_delay c)]> w)) s)
                else expired
            | None => expired
            end
        end
    end.

Definition sys_exit {A} (code : Z) : M State A := raise (SystemExit code).

(** ** class DevServer: the supervisor *)

Definition DevServer_init (p : Z) : DevServer := mkDevServer p None None.

(** [DevServer.stop_server] *)
Definition stop_server : M State unit :=
  sp ← gets (fun s => server_process (dev s));
  match sp with
  | Some h =>
      terminate h ;;
      try_except (wait h 5)
        (fun e => match e with
                  | TimeoutExpired => Some (kill h)
                  | _ => None
                  end) ;;
      modify (set_server_process None) ;;
      print MsgServerStopped
  | None => ret tt
  end.

(** [DevServer.start_server] *)
Definition start_server : M State unit :=
  sp ← gets (fun s => server_process (dev s));
  (if sp is Some _ then stop_server else ret tt) ;;
  try_except
    (h ← Popen;
     modify (set_server_process (Some h)) ;;
     p ← gets (fun s => port (dev s));
     print (MsgServerStarted p))
    (fun e => if is_Exception e
              then Some (print (MsgFailedToStart e))
              else None).

(** [DevServer.restart_server] *)
Definition restart_server : M State unit :=
  print MsgRestarting ;;
  stop_server ;;
  time_sleep (1 # 2) ;;
  start_server.

(** ** class ReloadHandler: the debounced watch callback *)

(** watchdog's events: what happened, to a directory or not, and where. *)
Inductive event_type : Type :=
| Modified | Created | Deleted | Moved | Closed | Opened.

Record FileSystemEvent : Type := mkEvent {
  kind : event_type;
  is_directory : bool;
  src_path : string
}.

(** [ReloadHandler.__init__] *)
Definition ReloadHandler_init : ReloadHandler := mkHandler 0 1.

Definition relevant_extensions : list string :=
  [".html"; ".js"; ".css"; ".json"; ".md"; ".ts"; ".svelte"].

Section Handler.

(** [self.restart_callback]: any computation on the program state. *)
Variable restart_callback : M State unit.

(** [ReloadHandler.on_modified]; the state is the handler object paired
    with the rest of the program. *)
Definition on_modified (event : FileSystemEvent)
  : M (ReloadHandler * State) unit :=
  if is_directory event then ret tt
  else
    let file_path := src_path event in
    if bool_decide (Str.lower (Path.suffix file_path) ∈ relevant_extensions)
    then
      current_time ← on_snd time_time;
      last ← gets (fun hs => last_restart (fst hs));
      delay ← gets (fun hs => debounce_delay (fst hs));
      if Qgt_bool (Float64.sub current_time last) delay
      then
        on_snd (print (MsgFileChanged (Path.name file_path))) ;;
        modify (fun hs =>
                  (mkHandler current_time (debounce_delay (fst hs)), snd hs)) ;;
        on_snd restart_callback
      else ret tt
    else ret tt.

(** [FileSystemEventHandler.dispatch], inherited from watchdog: the event
    goes to the method of its kind, and every method but [on_modified] is
    the base class's, which does nothing. *)
Definition dispatch (event : FileSystemEvent)
  : M (ReloadHandler * State) unit :=
  match kind event with
  | Modified => on_modified event
  | Created | Deleted | Moved | Closed | Opened => ret tt
  end.

End Handler.

(** ** The observer thread *)

Definition update_observer (f : Observer -> Observer) (s : State) : State :=
  set_observer (f <$> observer (dev s)) s.

(** [observer.schedule(event_handler, path, recursive=True)] *)
Definition observer_schedule (path : string) : M State unit :=
  modify (update_observer (fun o =>
    mkObserver (event_handler o) (watches o ++ [path]) (thread o))).

Definition set_thread (t : thread_status) (o : Observer) : Observer :=
  mkObserver (event_handler o) (watches o) t.

(** [observer.start()]: sets up the watches that were scheduled, then starts
    the thread.  Where the system refuses the watches (inotify out of
    instances or of watches, say) the [OSError] comes out of [start] and the
    thread is not started. *)
Definition observer_start : M State unit :=
  ws ← gets (fun s => from_option watches [] (observer (dev s)));
  err ← gets (fun s => inotify_error (os s));
  match ws, err with
  | _ :: _, Some msg => raise (OSError msg)
  | _, _ =>
      modify (update_observer (fun o =>
        match thread o with
        | Unstarted => set_thread Alive o
        | _ => o
        end))
  end.

(** [observer.stop()]: asks the thread to finish. *)
Definition observer_stop : M State unit :=
  modify (update_observer (fun o =>
    match thread o with
    | Alive => set_thread Stopping o
    | _ => o
    end)).

(** [observer.join()]: returns once the thread has finished, which a live
    thread that was not asked to stop never does. *)
Definition observer_join : M State unit :=
  fun s =>
    match observer (dev s) with
    | None => (Done tt, s)
    | Some o =>
        match thread o with
        | Stopping | Crashed | Joined =>
            (Done tt, update_observer (set_thread Joined) s)
        | Alive => (Pending, s)
        | Unstarted =>
            (Raised (RuntimeError "cannot join thread before it is started"), s)
        end
    end.

(** The observer thread handing one event to the handler.  Whatever the
    handler raises ends the thread, not the program. *)
Definition observer_deliver (callback : M State unit) (event : FileSystemEvent)
  : M State unit :=
  fun s =>
    match observer (dev s) with
    | Some o =>
        match thread o, watches o with
        | Alive, _ :: _ =>
            match dispatch callback event (event_handler o, s) with
            | (r, (h', s')) =>
                let s'' :=
                  update_observer (fun o' =>
                    mkObserver h' (watches o') (thread o')) s' in
                match r with
                | Done _ => (Done tt, s'')
                | Raised _ => (Done tt, update_observer (set_thread Crashed) s'')
                | Pending => (Pending, s'')
                end
            end
        | _, _ => (Done tt, s)
        end
    | None => (Done tt, s)
    end.

(** [DevServer.start_file_watcher] *)
Definition start_file_watcher : M State unit :=
  let event_handler := ReloadHandler_init in
  modify (set_observer (Some (mkObserver event_handler [] Unstarted))) ;;
  let watch_paths := ["."; "src"; "public"; "css"; "js"] in
  for_each watch_paths (fun path =>
    there ← path_exists path;
    if (there : bool)
    then observer_schedule path ;; print (MsgWatching path)
    else ret tt) ;;
  observer_start.

(** ** The main loop *)

(** What reaches the running program: time passing, a file event picked up
    by the observer, the interrupt signal. *)
Inductive input : Type :=
| Elapse (d : Q)
| FsEvent (e : FileSystemEvent)
| Sigint.

(** [signal_handler(sig, frame)] *)
Definition signal_handler : M State unit :=
  print MsgReceivedInterrupt ;;
  sys_exit 0.

(** SIGINT reaching the main thread: the installed handler runs there, in
    the middle of whatever the thread was doing. *)
Definition deliver_SIGINT : M State unit :=
  d ← gets (fun s => sigint (os s));
  match d with
  | default_int_handler => raise KeyboardInterrupt
  | installed_signal_handler => signal_handler
  end.

(** [while True: time.sleep(1)], against the inputs that arrive meanwhile.
    With no input left the loop is still sleeping.  A SIGINT ends the loop,
    whichever handler is installed. *)
Fixpoint main_loop (inputs : list input) : M State unit :=
  match inputs with
  | [] => fun s => (Pending, s)
  | Elapse d :: rest => time_sleep d ;; main_loop rest
  | FsEvent e :: rest => observer_deliver restart_server e ;; main_loop rest
  | Sigint :: rest => deliver_SIGINT ;; main_loop rest
  end.

(** The inputs the loop has not seen when the first SIGINT ends it. *)
Fixpoint after_signal (inputs : list input) : list input :=
  match inputs with
  | [] => []
  | Sigint :: rest => rest
  | _ :: rest => after_signal rest
  end.

(** Inputs that arrive once the loop is over, taken at the point where the
    main thread is about to start the clean-up: the observer thread is still
    there to handle events, and a further SIGINT is delivered like the
    first. *)
Fixpoint late_inputs (inputs : list input) : M State unit :=
  match inputs with
  | [] => ret tt
  | Elapse d :: rest => time_sleep d ;; late_inputs rest
  | FsEvent e :: rest => observer_deliver restart_server e ;; late_inputs rest
  | Sigint :: rest => deliver_SIGINT ;; late_inputs rest
  end.

(** [DevServer.run].  The clean-up follows the [try] statement, it is not
    part of it: [late_inputs] is where the inputs that are left reach the
    program. *)
Definition run (inputs : list input) : M State unit :=
  print MsgBanner ;;
  print MsgRule ;;
  start_server ;;
  start_file_watcher ;;
  print MsgServing ;;
  p ← gets (fun s => port (dev s));
  print (MsgOpen p) ;;
  print MsgWatchingChanges ;;
  print MsgPressCtrlC ;;
  print MsgBlank ;;
  try_except (main_loop inputs)
    (fun e => match e with
              | KeyboardInterrupt => Some (print MsgShuttingDown)
              | _ => None
              end) ;;
  late_inputs (after_signal inputs) ;;
  o ← gets (fun s => observer (dev s));
  (if o is Some _ then observer_stop ;; observer_join else ret tt) ;;
  stop_server ;;
  print MsgDevServerStopped.

(** The [if __name__ == "__main__":] block. *)
Definition script (inputs : list input) (w : World) : result unit * State :=
  let w' := set_sigint installed_signal_handler w in
  let server := DevServer_init 8081 in
  run inputs (mkState server w').

(** How the interpreter ends: [SystemExit] gives its code, any other
    exception a traceback and code 1.  The observer thread is a daemon
    thread: the interpreter does not wait for it, and nothing at exit
    signals the child process. *)
Inductive termination : Type :=
| Exit (code : Z)
| StillRunning.

Definition python (inputs : list input) (w : World) : termination * State :=
  match script inputs w with
  | (Done _, s) => (Exit 0, s)
  | (Raised (SystemExit c), s) => (Exit c, s)
  | (Raised _, s) => (Exit 1, s)
  | (Pending, s) => (StillRunning, s)
  end.

(** A machine on which nothing has run yet, and on which watches can be set
    up. *)
Definition boot (env : nat -> spawn_outcome) (paths : list string) : World :=
  mkWorld ∅ 0 env 0 [] paths default_int_handler None.

(** * Vocabulary of the statements *)

(** The supervisor is RUNNING when it holds a handle, STOPPED otherwise. *)
Inductive supervisor_state : Type := STOPPED | RUNNING.

Definition state_of (s : State) : supervisor_state :=
  if server_process (dev s) is Some _ then RUNNING else STOPPED.

(** Whether a child asked to terminate is gone [t] seconds later. *)
Definition exits_within (t : Q) (c : child) : bool :=
  match exit_delay c with
  | Some d => Qle_bool d t
  | None => false
  end.

Definition status_at (h : nat) (s : State) : option proc_status :=
  status <$> procs (os s) !! h.

Definition live_at (h : nat) (s : State) : bool :=
  from_option live false (procs (os s) !! h).

(** No child at all is alive. *)
Definition quiet (s : State) : Prop := forall k, live_at k s = false.

(** Handles are numbers of past [Popen] calls, and the handle the supervisor
    holds is one of a child that was spawned. *)
Definition handles_ok (s : State) : Prop :=
  (forall k, is_Some (procs (os s) !! k) -> k < popen_calls (os s)) /\
  (forall h, server_process (dev s) = Some h -> is_Some (procs (os s) !! h)).

(** The only child that can be alive is the one the supervisor holds. *)
Definition one_active (s : State) : Prop :=
  forall k, live_at k s = true -> server_process (dev s) = Some k.

(** What no supervisor method touches. *)
Record same_frame (s s' : State) : Prop := mkFrame {
  frame_port : port (dev s') = port (dev s);
  frame_observer : observer (dev s') = observer (dev s);
  frame_env : popen_env (os s') = popen_env (os s);
  frame_disk : on_disk (os s') = on_disk (os s);
  frame_sigint : sigint (os s') = sigint (os s);
  frame_inotify : inotify_error (os s') = inotify_error (os s)
}.

(** What the [try] block of [start_server] leaves behind, from a state
    without a handle. *)
Definition spawned_state (c : child) (s : State) : State :=
  let k := popen_calls (os s) in
  set_os (fun w => set_console (console w ++ [MsgServerStarted (port (dev s))]) w)
    (set_server_process (Some k)
      (set_os (fun w => set_popen_calls (S k) (set_procs <[k:=c]> w)) s)).

Definition spawn_failed_state (msg : string) (s : State) : State :=
  set_os (fun w => set_console (console w ++ [MsgFailedToStart (OSError msg)]) w)
    (set_os (set_popen_calls (S (popen_calls (os s)))) s).

(** The state in which [restart_server] calls [start_server]. *)
Definition restart_midpoint (s : State) : State :=
  snd (time_sleep (1 # 2) (snd (stop_server (snd (print MsgRestarting s))))).

(** [s1] is [s] with the supervisor stopped: no handle, the child [s] held
    dead, nothing else changed but the clock and the console. *)
Record stopped_from (s s1 : State) : Prop := mkStopped {
  stopped_handle : server_process (dev s1) = None;
  stopped_calls : popen_calls (os s1) = popen_calls (os s);
  stopped_frame : same_frame s s1;
  stopped_dom : forall k,
    is_Some (procs (os s1) !! k) <-> is_Some (procs (os s) !! k);
  stopped_live : forall k,
    live_at k s1 =
      if bool_decide (server_process (dev s) = Some k) then false
      else live_at k s
}.

(** [s'] is what a (re)start makes of [s]: one more [Popen] call, whose
    outcome decides the handle; the child [s] held is dead and the other
    old children are as they were. *)
Definition started_from (s s' : State) : Prop :=
  let n := popen_calls (os s) in
  let was k :=
    if bool_decide (server_process (dev s) = Some k) then false
    else live_at k s in
  popen_calls (os s') = S n /\
  same_frame s s' /\
  match popen_env (os s) n with
  | Spawned c =>
      server_process (dev s') = Some n /\
      procs (os s') !! n = Some c /\
      (forall k, k ≠ n -> live_at k s' = was k) /\
      (forall k, k ≠ n ->
         is_Some (procs (os s') !! k) <-> is_Some (procs (os s) !! k))
  | SpawnError msg =>
      server_process (dev s') = None /\
      last (console (os s')) = Some (MsgFailedToStart (OSError msg)) /\
      (forall k, live_at k s' = was k) /\
      (forall k, is_Some (procs (os s') !! k) <-> is_Some (procs (os s) !! k))
  end.

(** A child that is gone a tenth of a second after SIGTERM, and one that
    ignores SIGTERM. *)
Definition well_behaved : child := Child Running (Some (1 # 10)).
Definition stubborn : child := Child Running None.

Definition always_spawns (c : child) : nat -> spawn_outcome :=
  fun _ => Spawned c.
Definition never_spawns : nat -> spawn_outcome :=
  fun _ => SpawnError "No such file or directory: 'python3'".

(** A supervisor that has started nothing yet, and one that has started its
    server once. *)
Definition idle (env : nat -> spawn_outcome) : State :=
  mkState (DevServer_init 8081) (boot env ["."; "src"]).
Definition serving (env : nat -> spawn_outcome) : State :=
  snd (start_server (idle env)).

(** The time of an event: what [time.time()] returns when it is handled. *)
Definition now (s : State) : Q := Float64.round (clock (os s)).

(** An accepted event: the change is printed, the time is recorded and the
    callback runs, once, on the state so reached. *)
Definition accepted (cb : M State unit) (name : string)
    (h : ReloadHandler) (s : State) : result unit * (ReloadHandler * State) :=
  let s1 := snd (print (MsgFileChanged name) s) in
  (fst (cb s1), (mkHandler (now s) (debounce_delay h), snd (cb s1))).

(** The debounce: accepted when the handler finds the time of the event
    more than the delay past the last accepted one, dropped without a trace
    otherwise. *)
Definition debounced (cb : M State unit) (name : string)
    (h : ReloadHandler) (s : State) : result unit * (ReloadHandler * State) :=
  if Qgt_bool (Float64.sub (now s) (last_restart h)) (debounce_delay h)
  then accepted cb name h s
  else (Done tt, (h, s)).

(** The recorded times a handler can hold: the 0 of [__init__], or a float
    that is 1 at least. *)
Definition timestamp_ok (l : Q) : Prop :=
  (l == 0)%Q \/ (Float64.is_binary64 l = true /\ (1 <= l)%Q).

Definition index_html : FileSystemEvent :=
  mkEvent Modified false "src/index.html".
Definition INDEX_HTML : FileSystemEvent :=
  mkEvent Modified false "src/INDEX.Html".
Definition logo_png : FileSystemEvent :=
  mkEvent Modified false "public/logo.png".

(** The clock of [s] set to [t]. *)
Definition at_time (t : Q) (s : State) : State := set_os (set_clock t) s.

(** The server is up and the clock reads exactly one second. *)
Definition one_second_in : State :=
  at_time 1 (serving (always_spawns well_behaved)).

Definition index_created : FileSystemEvent :=
  mkEvent Created false "src/index.html".

Definition inv (s : State) : Prop := handles_ok s /\ one_active s.

(** A computation keeps [P] when the state it leaves satisfies [P] whenever
    the state it started in does, however it ends. *)
Definition keeps (P : State -> Prop) {A} (m : M State A) : Prop :=
  forall s, P s -> P (snd (m s)).

(** The states the program can be in: a new supervisor on a machine that has
    run nothing, then any sequence of supervisor calls, watcher start-ups,
    delivered file events, whole runs of [run], passing time, changes of the
    SIGINT disposition and of what the system allows in watches, and
    children exiting on their own. *)
Inductive reachable : State -> Prop :=
| reach_init p env paths :
    reachable (mkState (DevServer_init p) (boot env paths))
| reach_start s : reachable s -> reachable (snd (start_server s))
| reach_stop s : reachable s -> reachable (snd (stop_server s))
| reach_restart s : reachable s -> reachable (snd (restart_server s))
| reach_watch s : reachable s -> reachable (snd (start_file_watcher s))
| reach_event s e :
    reachable s -> reachable (snd (observer_deliver restart_server e s))
| reach_run s inputs : reachable s -> reachable (snd (run inputs s))
| reach_elapse s d : reachable s -> reachable (snd (time_sleep d s))
| reach_signal s d : reachable s -> reachable (set_os (set_sigint d) s)
| reach_inotify s e :
    reachable s -> reachable (set_os (set_inotify_error e) s)
| reach_child_exit s h c :
    reachable s ->
    procs (os s) !! h = Some c ->
    reachable (set_os (set_procs <[h:=Child Exited (exit_delay c)]>) s).

(** The [watch_paths] of [start_file_watcher], and those of a list of paths
    that exist. *)
Definition watch_candidates : list string := ["."; "src"; "public"; "css"; "js"].

Definition found_on (s : State) (paths : list string) : list string :=
  filter (fun p => p ∈ on_disk (os s)) paths.

(** [s] with observer [o] given the watches [found], one line printed for
    each. *)
Definition watching (o : Observer) (found : list string) (s : State) : State :=
  set_os (fun w => set_console (console w ++ (MsgWatching <$> found)) w)
    (set_observer
       (Some (mkObserver (event_handler o) (watches o ++ found) (thread o))) s).

(** The watcher can start: the system lets watches be set up, or there is
    nothing to watch. *)
Definition watchable (w : World) : Prop :=
  inotify_error w = None \/
  filter (fun p => p ∈ on_disk w) watch_candidates = [].

(** A machine with the project directory and [src], on which [Popen] always
    gives a child that heeds SIGTERM. *)
Definition dev_machine : World := boot (always_spawns well_behaved) ["."; "src"].

(** * Vocabulary of the further properties *)

(** The handler the observer holds is as the program can have made it: its
    delay is the one [__init__] gave it, and its recorded time is 0 or a
    float of 1 at least. *)
Definition handler_ok (s : State) : Prop :=
  forall o, observer (dev s) = Some o ->
    debounce_delay (event_handler o) = 1%Q /\
    timestamp_ok (last_restart (event_handler o)).

(** A child that exited on its own right after it was spawned. *)
Definition crashed : child := Child Exited None.

(** Two children running, the second of which the supervisor holds. *)
Definition two_children : State :=
  mkState (mkDevServer 8081 (Some 1) None)
    (set_popen_calls 2
       (set_procs (fun _ => <[1:=well_behaved]> (<[0:=stubborn]> ∅))
          (boot (always_spawns well_behaved) ["."; "src"]))).

(** The watcher started on a machine that has run nothing else. *)
Definition watcher_started : State :=
  snd (start_file_watcher (idle (always_spawns well_behaved))).

(** [dev_machine] with no inotify watch left to give. *)
Definition out_of_watches : World :=
  set_inotify_error (Some "inotify watch limit reached") dev_machine.

(** Two seconds pass, then a page is saved. *)
Definition save_after_two_seconds : list input :=
  [Elapse 2; FsEvent index_html].

(** The clean-up of [run]: its statements after the [try] statement. *)
Definition cleanup : M State unit :=
  o ← gets (fun s => observer (dev s));
  (if o is Some _ then observer_stop ;; observer_join else ret tt) ;;
  stop_server ;;
  print MsgDevServerStopped.

(** [run] from its [try] statement on. *)
Definition loop_and_cleanup (inputs : list input) : M State unit :=
  try_except (main_loop inputs)
    (fun e => match e with
              | KeyboardInterrupt => Some (print MsgShuttingDown)
              | _ => None
              end) ;;
  late_inputs (after_signal inputs) ;;
  cleanup.

(** The script two seconds in, after the page was saved and the server
    restarted for it, and the observer it then has. *)
Definition saved_once : State :=
  snd (python save_after_two_seconds dev_machine).

Definition saved_once_observer : Observer :=
  mkObserver (mkHandler (Float64.round 2) 1) ["."; "src"] Alive.

(** * Properties *)

(** ** Rounding to binary64 *)

Module Float64_facts.

Import Float64.

(** The floats of Python on some numbers: [0.1] and [1.1] (their
    [as_integer_ratio()]), a tie that goes to the even neighbour on either
    side, the smallest subnormal, and [1.1 - 0.1]. *)
Example round_one_tenth :
  (round (1 # 10) == 3602879701896397 # 36028797018963968)%Q.
Proof. reflexivity. Qed.

Example round_eleven_tenths :
  (round (11 # 10) == 2476979795053773 # 2251799813685248)%Q.
Proof. reflexivity. Qed.

Example round_tie_down : (round (1 + pow2 (-53)) == 1)%Q.
Proof. reflexivity. Qed.

Example round_tie_up : (round (1 + 3 * pow2 (-53)) == 1 + pow2 (-51))%Q.
Proof. reflexivity. Qed.

Example round_below_smallest :
  (round (pow2 (-1075)) == 0)%Q /\
  (round (3 * pow2 (-1076)) == pow2 (-1074))%Q.
Proof. split; vm_compute; reflexivity. Qed.

Example sub_eleven_tenths_one_tenth :
  (round (11 # 10) - round (1 # 10) == 1 + 3 * pow2 (-55))%Q /\
  (sub (round (11 # 10)) (round (1 # 10)) == 1)%Q.
Proof. split; reflexivity. Qed.

Lemma rne_cases (y : Q) : rne y = Qfloor y \/ rne y = (Qfloor y + 1)%Z.
Proof.
  unfold rne. destruct (Qcompare _ _); auto. destruct (Z.even _); auto.
Qed.

Lemma rne_lower (n : Z) (y : Q) : (inject_Z n <= y)%Q -> (n <= rne y)%Z.
Proof.
  intros H. apply Qfloor_resp_le in H. rewrite Qfloor_Z in H.
  destruct (rne_cases y) as [-> | ->]; lia.
Qed.

Lemma rne_upper (n : Z) (y : Q) : (y <= inject_Z n)%Q -> (rne y <= n)%Z.
Proof.
  intros H. pose proof (Qfloor_le y) as Hf.
  assert (Hle : (Qfloor y <= n)%Z).
  { apply Qfloor_resp_le in H. by rewrite Qfloor_Z in H. }
  unfold rne.
  destruct (Qcompare (y - inject_Z (Qfloor y)) (1 # 2)) eqn:E; try lia.
  - apply Qeq_alt in E. destruct (Z.even _); [lia|].
    destruct (Z.eq_dec (Qfloor y) n) as [Heq|]; [|lia].
    exfalso. rewrite Heq in *. lra.
  - apply Qgt_alt in E.
    destruct (Z.eq_dec (Qfloor y) n) as [Heq|]; [|lia].
    exfalso. rewrite Heq in *. lra.
Qed.

Lemma rne_gt_even (n : Z) (y : Q) :
  Z.even n = true ->
  ((n < rne y)%Z <-> (inject_Z n + (1 # 2) < y)%Q).
Proof.
  intros Hev. pose proof (Qfloor_le y) as Hf. pose proof (Qlt_floor y) as Hc.
  rewrite inject_Z_plus in Hc. change (inject_Z 1) with 1%Q in Hc.
  split.
  - intros Hlt.
    destruct (Qlt_le_dec (inject_Z n + (1 # 2)) y) as [|Hle]; [done|].
    exfalso.
    assert (Hfn : (Qfloor y <= n)%Z).
    { destruct (Z_le_gt_dec (Qfloor y) n) as [|Hgt]; [done|].
      assert (inject_Z (n + 1) <= inject_Z (Qfloor y))%Q
        by (rewrite <- Zle_Qle; lia).
      exfalso. rewrite inject_Z_plus in *.
      change (inject_Z 1) with 1%Q in *. lra. }
    unfold rne in Hlt.
    destruct (Qcompare (y - inject_Z (Qfloor y)) (1 # 2)) eqn:E.
    + apply Qeq_alt in E.
      destruct (Z.eq_dec (Qfloor y) n) as [Heq|]; [rewrite Heq, Hev in Hlt; lia|].
      destruct (Z.even (Qfloor y)); lia.
    + lia.
    + apply Qgt_alt in E.
      destruct (Z.eq_dec (Qfloor y) n) as [Heq|]; [exfalso; rewrite Heq in *; lra|lia].
  - intros Hlt.
    assert (Hfn : (n <= Qfloor y)%Z).
    { assert (H : (inject_Z n <= y)%Q) by lra.
      apply Qfloor_resp_le in H. by rewrite Qfloor_Z in H. }
    unfold rne.
    destruct (Qcompare (y - inject_Z (Qfloor y)) (1 # 2)) eqn:E.
    + apply Qeq_alt in E.
      destruct (Z.eq_dec (Qfloor y) n) as [Heq|]; [exfalso; rewrite Heq in *; lra|].
      destruct (Z.even (Qfloor y)); lia.
    + apply Qlt_alt in E.
      destruct (Z.eq_dec (Qfloor y) n) as [Heq|]; [exfalso; rewrite Heq in *; lra|lia].
    + lia.
Qed.

Lemma pow2_pos (e : Z) : (0 < pow2 e)%Q.
Proof. apply Qpower_0_lt. reflexivity. Qed.

Lemma pow2_add (a b : Z) : (pow2 (a + b) == pow2 a * pow2 b)%Q.
Proof. apply Qpower_plus. discriminate. Qed.

Lemma pow2_Z (n : Z) : (0 <= n)%Z -> (pow2 n == inject_Z (2 ^ n))%Q.
Proof. intros H. unfold pow2. by rewrite Zpower_Qpower. Qed.

Lemma pow2_le (a b : Z) : (a <= b)%Z -> (pow2 a <= pow2 b)%Q.
Proof. intros H. apply Qpower_le_compat_l; [done|]. discriminate. Qed.

Lemma pow2_lt (a b : Z) : (a < b)%Z -> (pow2 a < pow2 b)%Q.
Proof. intros H. apply Qpower_lt_compat_l; [done|]. reflexivity. Qed.

Lemma pow2_lt_inv (a b : Z) : (pow2 a < pow2 b)%Q -> (a < b)%Z.
Proof. intros H. apply (Qpower_lt_compat_l_inv 2); [done|reflexivity]. Qed.

Lemma binade_spec (x : Q) :
  (0 < x)%Q -> (pow2 (binade x) <= x)%Q /\ (x < pow2 (binade x + 1))%Q.
Proof.
  intros Hx. destruct x as [n d].
  assert (Hn : (0 < n)%Z).
  { unfold Qlt in Hx. simpl in Hx. lia. }
  set (a := Z.log2 n). set (b := Z.log2 (Zpos d)).
  destruct (Z.log2_spec n Hn) as [Ha1 Ha2]. fold a in Ha1, Ha2.
  destruct (Z.log2_spec (Zpos d) eq_refl) as [Hb1 Hb2]. fold b in Hb1, Hb2.
  assert (Ha0 : (0 <= a)%Z) by apply Z.log2_nonneg.
  assert (Hb0 : (0 <= b)%Z) by apply Z.log2_nonneg.
  assert (HA : (pow2 a <= inject_Z n)%Q /\ (inject_Z n < pow2 (a + 1))%Q).
  { rewrite !pow2_Z by lia. rewrite <- Zle_Qle, <- Zlt_Qlt. lia. }
  assert (HB : (pow2 b <= inject_Z (Zpos d))%Q
               /\ (inject_Z (Zpos d) < pow2 (b + 1))%Q).
  { rewrite !pow2_Z by lia. rewrite <- Zle_Qle, <- Zlt_Qlt. lia. }
  assert (Hq : (n # d == inject_Z n / inject_Z (Zpos d))%Q) by apply Qmake_Qdiv.
  pose proof (pow2_pos a). pose proof (pow2_pos b).
  assert (HN : (0 < inject_Z n)%Q) by (change 0%Q with (inject_Z 0); by rewrite <- Zlt_Qlt).
  assert (HD : (0 < inject_Z (Zpos d))%Q) by reflexivity.
  assert (Hlo : (pow2 (a - b - 1) <= n # d)%Q).
  { rewrite Hq. apply Qle_shift_div_l; [done|].
    assert (E : (pow2 a == pow2 (a - b - 1) * pow2 (b + 1))%Q).
    { rewrite <- pow2_add. by replace (a - b - 1 + (b + 1))%Z with a by lia. }
    pose proof (pow2_pos (a - b - 1)). nra. }
  assert (Hhi : (n # d < pow2 (a - b + 1))%Q).
  { rewrite Hq. apply Qlt_shift_div_r; [done|].
    assert (E : (pow2 (a + 1) == pow2 (a - b + 1) * pow2 b)%Q).
    { rewrite <- pow2_add. by replace (a - b + 1 + b)%Z with (a + 1)%Z by lia. }
    pose proof (pow2_pos (a - b + 1)). nra. }
  unfold binade. simpl Qnum. simpl Qden. fold a b.
  destruct (Qle_bool (pow2 (a - b)) (n # d)) eqn:E.
  - apply Qle_bool_iff in E. by split.
  - split; [done|].
    replace (a - b - 1 + 1)%Z with (a - b)%Z by lia.
    apply Qnot_le_lt. intros Hle. apply Qle_bool_iff in Hle. congruence.
Qed.

Lemma binade_unique (x : Q) (e : Z) :
  (pow2 e <= x)%Q -> (x < pow2 (e + 1))%Q -> binade x = e.
Proof.
  intros H1 H2.
  assert (Hx : (0 < x)%Q) by (pose proof (pow2_pos e); lra).
  destruct (binade_spec x Hx) as [B1 B2].
  assert ((e < binade x + 1)%Z) by (apply pow2_lt_inv; lra).
  assert ((binade x < e + 1)%Z) by (apply pow2_lt_inv; lra).
  lia.
Qed.

Lemma round_pos (x : Q) :
  (0 < x)%Q ->
  round x =
    (inject_Z (rne (x / pow2 (Z.max (binade x) (-1022) - 52)))
     * pow2 (Z.max (binade x) (-1022) - 52))%Q.
Proof.
  intros Hx. unfold round. by rewrite (proj1 (Qgt_alt x 0) Hx).
Qed.

Lemma round_nonpos (x : Q) : (x <= 0)%Q -> (round x <= 0)%Q.
Proof.
  intros Hx. unfold round.
  destruct (Qcompare x 0) eqn:E.
  - lra.
  - apply Qlt_alt in E.
    set (q := pow2 _). pose proof (pow2_pos (Z.max (binade (- x)) (-1022) - 52)) as Hq.
    fold q in Hq.
    assert (H0 : (0 <= rne (- x / q))%Z).
    { apply rne_lower. change (inject_Z 0) with 0%Q.
      apply Qle_shift_div_l; [done|]. lra. }
    assert (H1 : (0 <= inject_Z (rne (- x / q)))%Q).
    { change 0%Q with (inject_Z 0). by rewrite <- Zle_Qle. }
    nra.
  - apply Qgt_alt in E. lra.
Qed.

(** The rounded value of a positive number stays within its binade. *)
Lemma round_upper (x : Q) :
  (0 < x)%Q -> (round x <= pow2 (Z.max (binade x) (-1022) + 1))%Q.
Proof.
  intros Hx. rewrite (round_pos x Hx).
  destruct (binade_spec x Hx) as [_ B2].
  set (e := Z.max (binade x) (-1022)).
  assert (He : (x < pow2 (e + 1))%Q).
  { eapply Qlt_le_trans; [exact B2|]. apply pow2_le. lia. }
  pose proof (pow2_pos (e - 52)) as Hq.
  assert (E53 : (pow2 (e + 1) == inject_Z (2 ^ 53) * pow2 (e - 52))%Q).
  { rewrite <- pow2_Z by lia. rewrite <- pow2_add.
    by replace (53 + (e - 52))%Z with (e + 1)%Z by lia. }
  assert (Hm : (rne (x / pow2 (e - 52)) <= 2 ^ 53)%Z).
  { apply rne_upper. apply Qle_shift_div_r; [done|]. lra. }
  rewrite Zle_Qle in Hm. rewrite E53. nra.
Qed.

Lemma round_lower (x : Q) :
  (0 < x)%Q -> (-1022 <= binade x)%Z -> (pow2 (binade x) <= round x)%Q.
Proof.
  intros Hx Hb. rewrite (round_pos x Hx).
  destruct (binade_spec x Hx) as [B1 _].
  replace (Z.max (binade x) (-1022)) with (binade x) by lia.
  set (e := binade x) in *.
  pose proof (pow2_pos (e - 52)) as Hq.
  assert (E52 : (pow2 e == inject_Z (2 ^ 52) * pow2 (e - 52))%Q).
  { rewrite <- pow2_Z by lia. rewrite <- pow2_add.
    by replace (52 + (e - 52))%Z with e by lia. }
  assert (Hm : (2 ^ 52 <= rne (x / pow2 (e - 52)))%Z).
  { apply rne_lower. apply Qle_shift_div_l; [done|]. lra. }
  rewrite Zle_Qle in Hm. rewrite E52. nra.
Qed.

(** What the comparison of the handler comes to: a rounded difference is
    above 1 exactly when the difference is above 1 by more than half the
    spacing of binary64 numbers there. *)
Lemma round_gt_1 (x : Q) :
  (1 < round x)%Q <-> (1 + pow2 (-53) < x)%Q.
Proof.
  assert (H53 : (pow2 (-53) == 1 # 9007199254740992)%Q) by reflexivity.
  assert (H52 : (pow2 (-52) == 1 # 4503599627370496)%Q) by reflexivity.
  assert (H0 : (pow2 0 == 1)%Q) by reflexivity.
  assert (H1 : (pow2 1 == 2)%Q) by reflexivity.
  destruct (Qlt_le_dec 0 x) as [Hx|Hx].
  2:{ pose proof (round_nonpos x Hx). split; intros; lra. }
  destruct (Qlt_le_dec x 1) as [Hlt1|Hge1].
  { pose proof (round_upper x Hx) as Hu.
    destruct (binade_spec x Hx) as [B1 _].
    assert (Hb : (binade x < 0)%Z).
    { apply pow2_lt_inv. lra. }
    assert (Hp : (pow2 (Z.max (binade x) (-1022) + 1) <= pow2 0)%Q)
      by (apply pow2_le; lia).
    split; intros; lra. }
  destruct (Qlt_le_dec x 2) as [Hlt2|Hge2].
  - assert (Hb : binade x = 0%Z).
    { apply binade_unique; [|change (0 + 1)%Z with 1%Z]; lra. }
    rewrite (round_pos x Hx), Hb. change (Z.max 0 (-1022) - 52)%Z with (-52)%Z.
    set (y := (x / pow2 (-52))%Q).
    assert (Hy : (y == x * 4503599627370496)%Q).
    { unfold y, Qdiv. rewrite H52. reflexivity. }
    pose proof (rne_gt_even (2 ^ 52) y eq_refl) as Hr.
    change (inject_Z (2 ^ 52)) with 4503599627370496%Q in Hr.
    rewrite Zlt_Qlt in Hr.
    change (inject_Z (2 ^ 52)) with 4503599627370496%Q in Hr.
    rewrite H52, H53. split.
    + intros Hgt. assert (Hm : (4503599627370496 < inject_Z (rne y))%Q) by lra.
      apply Hr in Hm. lra.
    + intros Hgt. assert (Hm : (4503599627370496 + (1 # 2) < y)%Q) by lra.
      apply Hr in Hm. lra.
  - destruct (binade_spec x Hx) as [_ B2].
    assert (Hb : (0 < binade x)%Z).
    { assert ((1 < binade x + 1)%Z) by (apply pow2_lt_inv; lra). lia. }
    pose proof (round_lower x Hx ltac:(lia)) as Hl.
    assert (Hp : (pow2 1 <= pow2 (binade x))%Q) by (apply pow2_le; lia).
    split; intros; lra.
Qed.

Lemma rne_comp (x y : Q) : (x == y)%Q -> rne x = rne y.
Proof.
  intros H. unfold rne. rewrite (Qfloor_comp _ _ H).
  assert (H' : (x - inject_Z (Qfloor y) == y - inject_Z (Qfloor y))%Q)
    by (rewrite H; reflexivity).
  by rewrite (Qcompare_comp _ _ H' (1 # 2) (1 # 2) (Qeq_refl _)).
Qed.

Lemma rne_Z (n : Z) : rne (inject_Z n) = n.
Proof.
  unfold rne. rewrite Qfloor_Z.
  assert (H : (inject_Z n - inject_Z n < 1 # 2)%Q) by lra.
  by rewrite (proj1 (Qlt_alt _ _) H).
Qed.

Lemma mantissa_nonneg (x q : Q) :
  (0 < x)%Q -> (0 < q)%Q -> (0 <= rne (x / q))%Z.
Proof.
  intros Hx Hq. apply rne_lower. change (inject_Z 0) with 0%Q.
  apply Qle_shift_div_l; [done|]. lra.
Qed.

Lemma pow2_53 (e : Z) : (pow2 (e + 1) == inject_Z (2 ^ 53) * pow2 (e - 52))%Q.
Proof.
  rewrite <- pow2_Z by lia. rewrite <- pow2_add.
  by replace (53 + (e - 52))%Z with (e + 1)%Z by lia.
Qed.

Lemma pow2_52 (e : Z) : (pow2 e == inject_Z (2 ^ 52) * pow2 (e - 52))%Q.
Proof.
  rewrite <- pow2_Z by lia. rewrite <- pow2_add.
  by replace (52 + (e - 52))%Z with e by lia.
Qed.

Lemma mantissa_upper (x : Q) :
  (0 < x)%Q ->
  (rne (x / pow2 (Z.max (binade x) (-1022) - 52)) <= 2 ^ 53)%Z.
Proof.
  intros Hx. destruct (binade_spec x Hx) as [_ B2].
  set (e := Z.max (binade x) (-1022)).
  assert (He : (x < pow2 (e + 1))%Q).
  { eapply Qlt_le_trans; [exact B2|]. apply pow2_le. lia. }
  pose proof (pow2_pos (e - 52)) as Hq.
  pose proof (pow2_53 e) as E53.
  apply rne_upper. apply Qle_shift_div_r; [done|]. lra.
Qed.

Lemma mantissa_lower (x : Q) :
  (0 < x)%Q -> (2 ^ 52 <= rne (x / pow2 (binade x - 52)))%Z.
Proof.
  intros Hx. destruct (binade_spec x Hx) as [B1 _].
  pose proof (pow2_pos (binade x - 52)) as Hq.
  pose proof (pow2_52 (binade x)) as E52.
  apply rne_lower. apply Qle_shift_div_l; [done|]. lra.
Qed.

Lemma Qopp_opp (x : Q) : (- - x)%Q = x.
Proof. destruct x as [n d]. unfold Qopp. simpl. by rewrite Z.opp_involutive. Qed.

Lemma round_zero (x : Q) : (x == 0)%Q -> round x = 0%Q.
Proof. intros H. unfold round. by rewrite (proj1 (Qeq_alt _ _) H). Qed.

Lemma round_neg (x : Q) : (x < 0)%Q -> round x = (- round (- x))%Q.
Proof.
  intros Hx. rewrite (round_pos (- x)) by lra.
  unfold round. by rewrite (proj1 (Qlt_alt _ _) Hx).
Qed.

Lemma round_opp (x : Q) : (round (- x) == - round x)%Q.
Proof.
  destruct (Q_dec x 0) as [[Hlt|Hgt]|Heq].
  - rewrite (round_neg x Hlt). by rewrite Qopp_involutive.
  - rewrite (round_neg (- x)) by lra. by rewrite Qopp_opp.
  - rewrite (round_zero x Heq), (round_zero (- x)) by lra. reflexivity.
Qed.

(** Rounding a number that is already rounded changes nothing. *)
Lemma round_idem_pos (x : Q) : (0 < x)%Q -> (round (round x) == round x)%Q.
Proof.
  intros Hx. rewrite (round_pos x Hx).
  set (e := Z.max (binade x) (-1022)).
  set (q := pow2 (e - 52)). set (m := rne (x / q)).
  pose proof (pow2_pos (e - 52)) as Hq. fold q in Hq.
  assert (Hm0 : (0 <= m)%Z) by (by apply mantissa_nonneg).
  assert (Hm53 : (m <= 2 ^ 53)%Z) by (by apply mantissa_upper).
  pose proof (pow2_53 e) as E53. fold q in E53.
  pose proof (pow2_52 e) as E52. fold q in E52.
  set (r := (inject_Z m * q)%Q).
  destruct (Z.eq_dec m 0%Z) as [Hz|Hnz].
  { assert (Hr : (r == 0)%Q) by (unfold r; rewrite Hz; ring).
    rewrite (round_zero r Hr). by rewrite Hr. }
  assert (Hmq : (1 <= inject_Z m)%Q).
  { change 1%Q with (inject_Z 1). rewrite <- Zle_Qle. lia. }
  assert (Hm53q : (inject_Z m <= inject_Z (2 ^ 53))%Q) by (by rewrite <- Zle_Qle).
  assert (Hr : (0 < r)%Q) by (unfold r; nra).
  destruct (binade_spec r Hr) as [R1 R2].
  rewrite (round_pos r Hr).
  destruct (Z.eq_dec m (2 ^ 53)%Z) as [Htop|Hntop].
  - assert (Hre : (r == pow2 (e + 1))%Q) by (unfold r; rewrite Htop, E53; reflexivity).
    assert (Hb : binade r = (e + 1)%Z).
    { apply binade_unique; [lra|]. rewrite Hre. apply pow2_lt. lia. }
    rewrite Hb. replace (Z.max (e + 1) (-1022) - 52)%Z with (e + 1 - 52)%Z by lia.
    assert (Hq' : (pow2 (e + 1 - 52) == 2 * q)%Q).
    { replace (e + 1 - 52)%Z with (1 + (e - 52))%Z by lia.
      rewrite pow2_add. reflexivity. }
    assert (Hdiv : (r / pow2 (e + 1 - 52) == inject_Z (2 ^ 52))%Q).
    { rewrite Hq'. unfold r. rewrite Htop.
      change (inject_Z (2 ^ 52)) with 4503599627370496%Q.
      change (inject_Z (2 ^ 53)) with 9007199254740992%Q. field. lra. }
    rewrite (rne_comp _ _ Hdiv), rne_Z, Hq'. unfold r. rewrite Htop.
    change (inject_Z (2 ^ 52)) with 4503599627370496%Q.
    change (inject_Z (2 ^ 53)) with 9007199254740992%Q. ring.
  - assert (Hlt : (r < pow2 (e + 1))%Q).
    { assert ((inject_Z m < inject_Z (2 ^ 53))%Q) by (rewrite <- Zlt_Qlt; lia).
      unfold r. rewrite E53. nra. }
    assert (Hbe : (binade r <= e)%Z).
    { assert ((binade r < e + 1)%Z) by (apply pow2_lt_inv; lra). lia. }
    assert (He' : Z.max (binade r) (-1022) = e).
    { destruct (Z_lt_le_dec (binade x) (-1022)) as [Hsub|Hnorm].
      - unfold e in *. lia.
      - assert (He : e = binade x) by (unfold e; lia).
        assert (Hm52 : (2 ^ 52 <= m)%Z).
        { unfold m, q. rewrite He. by apply mantissa_lower. }
        assert ((inject_Z (2 ^ 52) <= inject_Z m)%Q) by (by rewrite <- Zle_Qle).
        assert (Hge : (pow2 e <= r)%Q) by (unfold r; rewrite E52; nra).
        assert ((e < binade r + 1)%Z) by (apply pow2_lt_inv; lra).
        lia. }
    rewrite He'. fold q.
    assert (Hdiv : (r / q == inject_Z m)%Q) by (unfold r; field; lra).
    by rewrite (rne_comp _ _ Hdiv), rne_Z.
Qed.

Lemma round_idem (x : Q) : (round (round x) == round x)%Q.
Proof.
  destruct (Q_dec x 0) as [[Hlt|Hgt]|Heq].
  - rewrite (round_neg x Hlt), round_opp.
    rewrite round_idem_pos by lra. reflexivity.
  - by apply round_idem_pos.
  - rewrite (round_zero x Heq). reflexivity.
Qed.

Lemma round_is_binary64 (x : Q) : is_binary64 (round x) = true.
Proof. unfold is_binary64. apply Qeq_bool_iff, round_idem. Qed.

(** From 1 up, binary64 numbers are whole multiples of 2^-52. *)
Lemma binary64_grid (x : Q) :
  is_binary64 x = true -> (1 <= x)%Q ->
  exists m : Z, (x == inject_Z m * pow2 (-52))%Q.
Proof.
  intros Hb Hx. apply Qeq_bool_iff in Hb.
  assert (Hpos : (0 < x)%Q) by lra.
  rewrite (round_pos x Hpos) in Hb.
  destruct (binade_spec x Hpos) as [_ B2].
  assert (H0 : (pow2 0 == 1)%Q) by reflexivity.
  assert (Hbin : (0 <= binade x)%Z).
  { assert ((0 < binade x + 1)%Z) by (apply pow2_lt_inv; lra). lia. }
  replace (Z.max (binade x) (-1022)) with (binade x) in Hb by lia.
  set (m := rne (x / pow2 (binade x - 52))) in Hb.
  exists (m * 2 ^ binade x)%Z.
  apply (Qeq_trans _ _ _ (Qeq_sym _ _ Hb)).
  set (b := binade x) in *.
  rewrite inject_Z_mult, <- pow2_Z by done.
  replace (b - 52)%Z with (b + -52)%Z by lia.
  rewrite (pow2_add b (-52)). ring.
Qed.

Lemma grid_gt_1 (m : Z) :
  (1 < inject_Z m * pow2 (-52))%Q ->
  (1 + pow2 (-53) < inject_Z m * pow2 (-52))%Q.
Proof.
  assert (H53 : (pow2 (-53) == 1 # 9007199254740992)%Q) by reflexivity.
  assert (H52 : (pow2 (-52) == 1 # 4503599627370496)%Q) by reflexivity.
  rewrite H52, H53. intros H.
  assert (Hm : (2 ^ 52 < m)%Z).
  { rewrite Zlt_Qlt. change (inject_Z (2 ^ 52)) with 4503599627370496%Q. lra. }
  assert (Hm' : (2 ^ 52 + 1 <= m)%Z) by lia.
  rewrite Zle_Qle in Hm'.
  change (inject_Z (2 ^ 52 + 1)) with 4503599627370497%Q in Hm'. lra.
Qed.

(** The subtraction of the handler is on the right side of 1 whenever the
    two times are binary64 numbers that are 0 or at least 1. *)
Lemma sub_gt_1 (t l : Q) :
  is_binary64 t = true ->
  (l == 0)%Q \/ (is_binary64 l = true /\ (1 <= l)%Q) ->
  (1 < sub t l)%Q <-> (1 < t - l)%Q.
Proof.
  intros Ht Hl. unfold sub. rewrite round_gt_1. split.
  - pose proof (pow2_pos (-53)). lra.
  - intros Hgt.
    assert (Hl0 : (0 <= l)%Q) by (destruct Hl as [Hl|[_ Hl]]; lra).
    destruct (binary64_grid t Ht ltac:(lra)) as [mt Hmt].
    assert (Hgl : exists ml : Z, (l == inject_Z ml * pow2 (-52))%Q).
    { destruct Hl as [Hl|[Hb Hl]]; [|by apply binary64_grid].
      exists 0%Z. rewrite Hl. change (inject_Z 0) with 0%Q. ring. }
    destruct Hgl as [ml Hml].
    assert (Hd : (t - l == inject_Z (mt - ml) * pow2 (-52))%Q).
    { rewrite Hmt, Hml. unfold Z.sub. rewrite inject_Z_plus, inject_Z_opp. ring. }
    rewrite Hd in Hgt |- *. by apply grid_gt_1.
Qed.

Lemma sub_le_1 (t l : Q) : (t - l <= 1)%Q -> (sub t l <= 1)%Q.
Proof.
  intros Hle. apply Qnot_lt_le. intros Hgt.
  apply round_gt_1 in Hgt. pose proof (pow2_pos (-53)). lra.
Qed.

End Float64_facts.

(** ** Paths and extensions, on examples *)

Example suffix_index_html : Path.suffix "src/index.html" = ".html".
Proof. reflexivity. Qed.
Example suffix_tar_gz : Path.suffix "a/b.tar.gz" = ".gz".
Proof. reflexivity. Qed.
Example suffix_hidden : Path.suffix ".html" = "".
Proof. reflexivity. Qed.
Example suffix_trailing_dot : Path.suffix "notes." = "".
Proof. reflexivity. Qed.
Example suffix_dir_slash : Path.suffix "src/app.JS/" = ".JS".
Proof. reflexivity. Qed.
Example name_index_html : Path.name "./src/index.html" = "index.html".
Proof. reflexivity. Qed.
Example lower_mixed : Str.lower ".HtMl" = ".html".
Proof. reflexivity. Qed.

(** ** Frames *)

Lemma same_frame_refl s : same_frame s s.
Proof. by split. Qed.

Lemma same_frame_trans s1 s2 s3 :
  same_frame s1 s2 -> same_frame s2 s3 -> same_frame s1 s3.
Proof. intros [] []; split; congruence. Qed.

Ltac py_unfold :=
  unfold mbind, M_bind, bind, ret, gets, modify, raise, try_except, on_snd,
    print, time_time, time_sleep, terminate, kill, sys_exit in *.

(** Lookups in the process table after the updates of [stop_server], at the
    stopped handle [h] and elsewhere. *)
Ltac procs_at h k Hc :=
  destruct (decide (h = k)) as [->|?];
  [ rewrite ?lookup_insert_eq, ?lookup_alter_eq, ?Hc
  | rewrite ?lookup_insert_ne, ?lookup_alter_ne by done ];
  simpl.

(** ** The supervisor *)

(** [stop_server] always returns; it clears the handle, leaves the child it
    held dead and every other child as it was. *)
Lemma stop_server_spec s :
  exists s',
    stop_server s = (Done tt, s') /\
    server_process (dev s') = None /\
    popen_calls (os s') = popen_calls (os s) /\
    same_frame s s' /\
    (forall k, is_Some (procs (os s') !! k) <-> is_Some (procs (os s) !! k)) /\
    (forall k, live_at k s' =
               if bool_decide (server_process (dev s) = Some k) then false
               else live_at k s).
Proof.
  unfold stop_server. py_unfold.
  destruct (server_process (dev s)) as [h|] eqn:Hh; simpl.
  2:{ eexists; split; [reflexivity|]. rewrite Hh. repeat split; auto. }
  unfold wait; simpl. rewrite lookup_alter_eq.
  destruct (procs (os s) !! h) as [[st d]|] eqn:Hc; simpl.
  - destruct st, d as [d|]; simpl; try destruct (Qle_bool d 5); simpl;
      (eexists; split; [reflexivity|]; simpl; repeat split; auto;
       try intros k; unfold live_at; simpl; procs_at h k Hc;
       try case_bool_decide; simpl; auto; try congruence).
  - eexists; split; [reflexivity|]; simpl; repeat split; auto;
      try intros k; unfold live_at; simpl; procs_at h k Hc;
      try case_bool_decide; simpl; auto; try congruence.
Qed.

Lemma stop_server_None s :
  server_process (dev s) = None -> stop_server s = (Done tt, s).
Proof. intros H. unfold stop_server. py_unfold. by rewrite H. Qed.

Lemma stop_server_Done s : fst (stop_server s) = Done tt.
Proof. destruct (stop_server_spec s) as (s' & -> & _). reflexivity. Qed.

Lemma start_server_stopped s :
  server_process (dev s) = None ->
  start_server s =
    (Done tt,
     match popen_env (os s) (popen_calls (os s)) with
     | Spawned c => spawned_state c s
     | SpawnError msg => spawn_failed_state msg s
     end).
Proof.
  intros H. unfold start_server. py_unfold. rewrite H. simpl.
  unfold Popen. destruct (popen_env _ _); reflexivity.
Qed.

(** [start_server] is [stop_server] followed by [start_server] from
    STOPPED. *)
Lemma start_server_stop_first s :
  start_server s = start_server (snd (stop_server s)).
Proof.
  destruct (server_process (dev s)) as [h|] eqn:Hh.
  - destruct (stop_server_spec s) as (s' & Hs & Hnone & _).
    rewrite Hs. simpl.
    unfold start_server at 1. py_unfold. rewrite Hh. simpl. rewrite Hs.
    unfold start_server. py_unfold. rewrite Hnone. reflexivity.
  - by rewrite stop_server_None.
Qed.

Lemma restart_server_midpoint s :
  restart_server s = start_server (restart_midpoint s).
Proof.
  unfold restart_server, restart_midpoint.
  destruct (stop_server_spec (snd (print MsgRestarting s))) as (s' & Hs & _).
  rewrite Hs. py_unfold. simpl in *. rewrite Hs. reflexivity.
Qed.

Lemma stop_server_stopped_from s : stopped_from s (snd (stop_server s)).
Proof.
  destruct (stop_server_spec s) as (s' & -> & ? & ? & ? & ? & ?).
  by split.
Qed.

Lemma restart_midpoint_stopped_from s : stopped_from s (restart_midpoint s).
Proof.
  unfold restart_midpoint.
  destruct (stop_server_spec (snd (print MsgRestarting s)))
    as (s' & -> & ? & ? & [] & ? & ?).
  split; simpl in *; auto. by split.
Qed.

Lemma start_from_stopped s s1 :
  stopped_from s s1 ->
  exists s', start_server s1 = (Done tt, s') /\ started_from s s'.
Proof.
  intros [Hnone Hcalls [Hport Hobs Henv Hdisk Hsig] Hdom Hlive].
  rewrite (start_server_stopped s1 Hnone).
  eexists; split; [reflexivity|].
  unfold started_from. rewrite Henv, Hcalls.
  destruct (popen_env (os s) (popen_calls (os s))) as [c|msg];
    unfold spawned_state, spawn_failed_state; simpl; rewrite ?Hcalls.
  - repeat split; simpl; auto.
    + apply lookup_insert_eq.
    + intros k Hk. rewrite <- Hlive. unfold live_at; simpl.
      by rewrite lookup_insert_ne.
    + rewrite lookup_insert_ne by done. apply Hdom.
    + rewrite lookup_insert_ne by done. apply Hdom.
  - repeat split; simpl; auto.
    + apply last_snoc.
    + apply Hdom.
    + apply Hdom.
Qed.

Lemma start_server_spec s :
  exists s', start_server s = (Done tt, s') /\ started_from s s'.
Proof.
  rewrite start_server_stop_first.
  apply start_from_stopped, stop_server_stopped_from.
Qed.

Lemma restart_server_spec s :
  exists s', restart_server s = (Done tt, s') /\ started_from s s'.
Proof.
  rewrite restart_server_midpoint.
  apply start_from_stopped, restart_midpoint_stopped_from.
Qed.

Lemma start_server_Done s : fst (start_server s) = Done tt.
Proof. by destruct (start_server_spec s) as (s' & -> & _). Qed.

Lemma restart_server_Done s : fst (restart_server s) = Done tt.
Proof. by destruct (restart_server_spec s) as (s' & -> & _). Qed.

(** ** The invariant *)

Lemma stopped_from_quiet s s1 :
  one_active s -> stopped_from s s1 -> quiet s1.
Proof.
  intros Hone Hst k. rewrite (stopped_live _ _ Hst).
  case_bool_decide as Hk; [done|].
  destruct (live_at k s) eqn:Hl; [|done].
  by apply Hone in Hl.
Qed.

Lemma stopped_from_handles_ok s s1 :
  handles_ok s -> stopped_from s s1 -> handles_ok s1.
Proof.
  intros [Hb Hh] Hst. split.
  - intros k Hk. rewrite (stopped_calls _ _ Hst).
    by apply Hb, (stopped_dom _ _ Hst).
  - intros h Hsome. by rewrite (stopped_handle _ _ Hst) in Hsome.
Qed.

Lemma stopped_from_one_active s s1 :
  one_active s -> stopped_from s s1 -> one_active s1.
Proof.
  intros Hone Hst k Hk. by rewrite (stopped_from_quiet s s1) in Hk.
Qed.

Lemma started_from_handles_ok s s' :
  handles_ok s -> started_from s s' -> handles_ok s'.
Proof.
  intros [Hb Hh]. unfold started_from.
  destruct (popen_env _ _) as [c|msg];
    intros (Hcalls & _ & Hnew & H2 & H3 & Hdom); split.
  - intros k Hk. rewrite Hcalls.
    destruct (decide (k = popen_calls (os s))) as [->|Hne]; [lia|].
    apply Hdom in Hk; [|done]. apply Hb in Hk. lia.
  - intros h Hsome. rewrite Hnew in Hsome. injection Hsome as <-.
    by rewrite H2.
  - intros k Hk. rewrite Hcalls. apply Hdom, Hb in Hk. lia.
  - intros h Hsome. by rewrite Hnew in Hsome.
Qed.

Lemma started_from_one_active s s' :
  one_active s -> started_from s s' -> one_active s'.
Proof.
  intros Hone. unfold started_from.
  assert (Hwas : forall k,
    (if bool_decide (server_process (dev s) = Some k) then false
     else live_at k s) = false).
  { intros k. case_bool_decide as Hk; [done|].
    destruct (live_at k s) eqn:Hl; [|done]. by apply Hone in Hl. }
  destruct (popen_env _ _) as [c|msg];
    intros (_ & _ & Hnew & H2 & Hlive & _) k Hk.
  - destruct (decide (k = popen_calls (os s))) as [->|Hne]; [done|].
    rewrite Hlive, Hwas in Hk; done.
  - rewrite Hlive, Hwas in Hk; done.
Qed.

(** ** The example machines are well formed *)

Lemma handles_ok_idle env : handles_ok (idle env).
Proof.
  split; simpl.
  - intros k [c Hc]. by rewrite lookup_empty in Hc.
  - intros h Hh. discriminate Hh.
Qed.

Lemma one_active_idle env : one_active (idle env).
Proof. intros k Hk. unfold live_at in Hk. simpl in Hk. by rewrite lookup_empty in Hk. Qed.

Lemma handles_ok_serving env : handles_ok (serving env).
Proof.
  unfold serving. destruct (start_server_spec (idle env)) as (s' & -> & Hst).
  exact (started_from_handles_ok _ _ (handles_ok_idle env) Hst).
Qed.

(** ** Claims about the supervisor *)

(** C7.  [stop_server] with no process handle is a no-op: it returns
    normally (no exception) and the state, still STOPPED, is the one it was
    called in. *)
Theorem stop_without_process_is_noop (s : State) :
  server_process (dev s) = None ->
  stop_server s = (Done tt, s) /\ state_of s = STOPPED.
Proof.
  intros H. split; [by apply stop_server_None|].
  unfold state_of. by rewrite H.
Qed.

Lemma stop_without_process_is_noop_witness :
  server_process (dev (idle never_spawns)) = None /\
  stop_server (idle never_spawns) = (Done tt, idle never_spawns) /\
  state_of (idle never_spawns) = STOPPED.
Proof.
  split; [reflexivity|].
  apply (stop_without_process_is_noop (idle never_spawns)). reflexivity.
Defined.

(** C6.  Stopping a supervisor whose child is running: [stop_server]
    returns normally, the handle is cleared, and the child is [Exited] if it
    goes within the 5 seconds after SIGTERM and [Killed] if it does not. *)
Theorem stop_server_timeout_escalates (s : State) (h : nat) (c : child) :
  server_process (dev s) = Some h ->
  procs (os s) !! h = Some c ->
  status c = Running ->
  exists s',
    stop_server s = (Done tt, s') /\
    server_process (dev s') = None /\
    status_at h s' = Some (if exits_within 5 c then Exited else Killed).
Proof.
  intros Hh Hc Hr. unfold stop_server. py_unfold. rewrite Hh. simpl.
  unfold wait. simpl. rewrite lookup_alter_eq, Hc. simpl.
  unfold sigterm, exits_within. rewrite Hr. simpl.
  destruct (exit_delay c) as [d|]; [destruct (Qle_bool d 5)|]; simpl;
    (eexists; split; [reflexivity|]; split; [reflexivity|]);
    unfold status_at; simpl;
    rewrite ?lookup_insert_eq, ?lookup_alter_eq, ?Hc; simpl;
    unfold sigterm; rewrite ?Hr; reflexivity.
Qed.

Lemma stop_server_timeout_escalates_witness :
  server_process (dev (serving (always_spawns stubborn))) = Some 0 /\
  procs (os (serving (always_spawns stubborn))) !! 0 = Some stubborn /\
  status stubborn = Running /\
  exists s',
    stop_server (serving (always_spawns stubborn)) = (Done tt, s') /\
    server_process (dev s') = None /\
    status_at 0 s' = Some Killed.
Proof.
  split; [reflexivity|]. split; [reflexivity|]. split; [reflexivity|].
  apply (stop_server_timeout_escalates
           (serving (always_spawns stubborn)) 0 stubborn); reflexivity.
Defined.

(** C4.  When [Popen] raises, [start_server] returns normally: the failure
    is printed and not raised, there has been one attempt and no more, the
    supervisor is STOPPED with no handle, and [start_server], [stop_server]
    and [restart_server] can be called again; a later [start_server] ends
    RUNNING as soon as [Popen] succeeds. *)
Theorem start_server_spawn_failure (s : State) (msg : string) :
  popen_env (os s) (popen_calls (os s)) = SpawnError msg ->
  exists s',
    start_server s = (Done tt, s') /\
    server_process (dev s') = None /\
    state_of s' = STOPPED /\
    last (console (os s')) = Some (MsgFailedToStart (OSError msg)) /\
    popen_calls (os s') = S (popen_calls (os s)) /\
    fst (start_server s') = Done tt /\
    fst (stop_server s') = Done tt /\
    fst (restart_server s') = Done tt /\
    state_of (snd (start_server s')) =
      match popen_env (os s') (popen_calls (os s')) with
      | Spawned _ => RUNNING
      | SpawnError _ => STOPPED
      end.
Proof.
  intros Hfail.
  destruct (start_server_spec s) as (s' & Hs & Hcalls & _ & Hout).
  rewrite Hfail in Hout. destruct Hout as (Hnone & Hlast & _).
  exists s'. repeat split; auto.
  - unfold state_of. by rewrite Hnone.
  - apply start_server_Done.
  - apply stop_server_Done.
  - apply restart_server_Done.
  - destruct (start_server_spec s') as (s'' & -> & _ & _ & Hout'). simpl.
    unfold state_of.
    destruct (popen_env (os s') (popen_calls (os s'))).
    + destruct Hout' as (-> & _). reflexivity.
    + destruct Hout' as (-> & _). reflexivity.
Qed.

Lemma start_server_spawn_failure_witness :
  popen_env (os (idle never_spawns)) (popen_calls (os (idle never_spawns)))
    = SpawnError "No such file or directory: 'python3'" /\
  state_of (snd (start_server (idle never_spawns))) = STOPPED /\
  fst (start_server (idle never_spawns)) = Done tt.
Proof.
  split; [reflexivity|].
  destruct (start_server_spawn_failure (idle never_spawns) _ eq_refl)
    as (s' & -> & _ & Hst & _).
  split; [exact Hst | reflexivity].
Defined.

(** C2 as stated fails: with [Popen] failing, [restart_server] called on a
    fresh supervisor does not end RUNNING. *)
Lemma restart_spawn_failure_not_running :
  state_of (snd (restart_server (idle never_spawns))) <> RUNNING.
Proof. vm_compute. discriminate. Qed.

(** C2, amended.  [restart_server] always returns.  When [Popen] succeeds
    the supervisor ends RUNNING with the handle of the child just spawned,
    which no child had before and which differs from the handle held before
    the restart; when [Popen] fails it ends STOPPED. *)
Theorem restart_server_outcome (s : State) :
  handles_ok s ->
  exists s',
    restart_server s = (Done tt, s') /\
    match popen_env (os s) (popen_calls (os s)) with
    | Spawned c =>
        state_of s' = RUNNING /\
        exists h,
          server_process (dev s') = Some h /\
          server_process (dev s) <> Some h /\
          procs (os s) !! h = None /\
          procs (os s') !! h = Some c
    | SpawnError _ => state_of s' = STOPPED
    end.
Proof.
  intros [Hb Hh].
  destruct (restart_server_spec s) as (s' & Hs & _ & _ & Hout).
  exists s'. split; [done|].
  assert (Hfree : procs (os s) !! popen_calls (os s) = None).
  { destruct (procs (os s) !! popen_calls (os s)) eqn:E; [|done].
    assert (popen_calls (os s) < popen_calls (os s)) by (apply Hb; eauto).
    lia. }
  unfold state_of. destruct (popen_env _ _).
  - destruct Hout as (Hnew & Hc & _). rewrite Hnew. split; [done|].
    exists (popen_calls (os s)). repeat split; auto.
    intros Hold. apply Hh in Hold. rewrite Hfree in Hold.
    by destruct Hold.
  - destruct Hout as (-> & _). reflexivity.
Qed.

Lemma restart_server_outcome_witness :
  handles_ok (serving (always_spawns well_behaved)) /\
  state_of (snd (restart_server (serving (always_spawns well_behaved))))
    = RUNNING.
Proof.
  split; [apply handles_ok_serving|].
  destruct (restart_server_outcome _
              (handles_ok_serving (always_spawns well_behaved)))
    as (s' & -> & Hrun & _).
  exact Hrun.
Defined.

(** ** The watch handler *)

Lemma Qgt_bool_true (a b : Q) : Qgt_bool a b = true <-> (b < a)%Q.
Proof.
  unfold Qgt_bool. rewrite negb_true_iff. split.
  - intros H. apply Qnot_le_lt. intros Hle.
    apply Qle_bool_iff in Hle. congruence.
  - intros H. destruct (Qle_bool a b) eqn:E; [|done].
    apply Qle_bool_iff in E. by apply Qlt_not_le in H.
Qed.

Lemma Qgt_bool_false (a b : Q) : Qgt_bool a b = false <-> (a <= b)%Q.
Proof.
  unfold Qgt_bool. rewrite negb_false_iff. apply Qle_bool_iff.
Qed.

Lemma on_modified_qualifying cb e h s :
  is_directory e = false ->
  Str.lower (Path.suffix (src_path e)) ∈ relevant_extensions ->
  on_modified cb e (h, s) = debounced cb (Path.name (src_path e)) h s.
Proof.
  intros Hdir Hext. unfold on_modified, debounced, accepted.
  rewrite Hdir, (bool_decide_eq_true_2 _ Hext).
  py_unfold. simpl. fold (now s).
  destruct (Qgt_bool _ _); [|reflexivity].
  simpl. by destruct (cb _).
Qed.

Lemma on_modified_directory cb e h s :
  is_directory e = true -> on_modified cb e (h, s) = (Done tt, (h, s)).
Proof. intros Hdir. unfold on_modified. by rewrite Hdir. Qed.

Lemma on_modified_other_extension cb e h s :
  Str.lower (Path.suffix (src_path e)) ∉ relevant_extensions ->
  on_modified cb e (h, s) = (Done tt, (h, s)).
Proof.
  intros Hext. unfold on_modified.
  destruct (is_directory e); [done|].
  by rewrite (bool_decide_eq_false_2 _ Hext).
Qed.

(** Whatever the event, the program state after [on_modified] is the one
    before, or the callback's after the notification. *)
Lemma on_modified_cases cb e h s :
  on_modified cb e (h, s) = (Done tt, (h, s)) \/
  on_modified cb e (h, s) = accepted cb (Path.name (src_path e)) h s.
Proof.
  destruct (is_directory e) eqn:Hdir.
  { left. by apply on_modified_directory. }
  destruct (decide (Str.lower (Path.suffix (src_path e)) ∈ relevant_extensions))
    as [Hin|Hout].
  - rewrite on_modified_qualifying by done. unfold debounced.
    destruct (Qgt_bool _ _); auto.
  - left. by apply on_modified_other_extension.
Qed.

Lemma lower_allowed (x : string) :
  x ∈ relevant_extensions -> Str.lower x = x.
Proof.
  unfold relevant_extensions. intros H.
  repeat (apply elem_of_cons in H as [->|H]; [reflexivity|]).
  by apply elem_of_nil in H.
Qed.

(** Writing back the handler the observer already holds changes nothing. *)
Lemma update_observer_same s o :
  observer (dev s) = Some o ->
  update_observer (fun o' => mkObserver (event_handler o) (watches o') (thread o')) s = s.
Proof.
  destruct s as [[p sp ob] w]. simpl. intros ->. by destruct o.
Qed.

Lemma observer_deliver_ignored cb e s :
  (forall h, dispatch cb e (h, s) = (Done tt, (h, s))) ->
  observer_deliver cb e s = (Done tt, s).
Proof.
  intros Hd. unfold observer_deliver.
  destruct (observer (dev s)) as [o|] eqn:Ho; [|done].
  destruct (thread o); try done.
  destruct (watches o); [done|].
  rewrite Hd. by rewrite update_observer_same.
Qed.

(** What the handler's comparison comes to, in exact terms. *)
Lemma now_is_binary64 s : Float64.is_binary64 (now s) = true.
Proof. apply Float64_facts.round_is_binary64. Qed.

Lemma debounce_test_true (h : ReloadHandler) (s : State) :
  debounce_delay h = 1%Q ->
  timestamp_ok (last_restart h) ->
  (1 < now s - last_restart h)%Q ->
  Qgt_bool (Float64.sub (now s) (last_restart h)) (debounce_delay h) = true.
Proof.
  intros -> Hok Hlt. apply Qgt_bool_true.
  by apply Float64_facts.sub_gt_1; [apply now_is_binary64| |].
Qed.

Lemma debounce_test_false (h : ReloadHandler) (s : State) :
  debounce_delay h = 1%Q ->
  (now s - last_restart h <= 1)%Q ->
  Qgt_bool (Float64.sub (now s) (last_restart h)) (debounce_delay h) = false.
Proof.
  intros -> Hle. apply Qgt_bool_false. by apply Float64_facts.sub_le_1.
Qed.

(** An event the handler accepts is one it finds more than a second past a
    recorded time that is not negative: its own time is above 1. *)
Lemma accepted_time_above_one (h : ReloadHandler) (s : State) :
  debounce_delay h = 1%Q ->
  (0 <= last_restart h)%Q ->
  Qgt_bool (Float64.sub (now s) (last_restart h)) (debounce_delay h) = true ->
  (1 < now s)%Q.
Proof.
  intros -> Hl Hacc. apply Qgt_bool_true in Hacc.
  unfold Float64.sub in Hacc. apply Float64_facts.round_gt_1 in Hacc.
  pose proof (Float64_facts.pow2_pos (-53)). lra.
Qed.

Lemma timestamp_ok_nonneg (l : Q) : timestamp_ok l -> (0 <= l)%Q.
Proof. intros [H|[_ H]]; lra. Qed.

(** C3 as stated fails at the boundary: an event exactly one second after
    the last accepted one is dropped, the recorded time stays what it was
    and the program state is untouched. *)
Lemma debounce_exactly_one_second_dropped :
  Str.lower (Path.suffix (src_path index_html)) ∈ relevant_extensions /\
  (1 <= now one_second_in - last_restart ReloadHandler_init)%Q /\
  ~ (last_restart
       (fst (snd (on_modified restart_server index_html
                    (ReloadHandler_init, one_second_in))))
     == now one_second_in)%Q /\
  snd (snd (on_modified restart_server index_html
              (ReloadHandler_init, one_second_in))) = one_second_in.
Proof.
  split; [|split; [|split]].
  - apply (bool_decide_unpack _). vm_compute. exact I.
  - vm_compute. discriminate.
  - vm_compute. discriminate.
  - vm_compute. reflexivity.
Qed.

(** Why the recorded time has to be 0 or at least 1 in the amended claim:
    between 0 and 1 binary64 numbers lie closer together than above 1, and
    the float difference of two times can be exactly 1 where the times are
    more than a second apart.  With 0.1 recorded and the clock at 1.1, the
    two floats are 1 + 2^-53 apart, Python computes [1.1 - 0.1 == 1.0], and
    the event is dropped.  No run of the program records such a time
    ([reachable_timestamp_ok] below). *)
Lemma debounce_rounds_to_one_second :
  let h := mkHandler (Float64.round (1 # 10)) 1 in
  let s := at_time (11 # 10) one_second_in in
  Float64.is_binary64 (last_restart h) = true /\
  (1 < now s - last_restart h)%Q /\
  (Float64.sub (now s) (last_restart h) == 1)%Q /\
  on_modified restart_server index_html (h, s) = (Done tt, (h, s)).
Proof.
  split; [|split; [|split]].
  - vm_compute. reflexivity.
  - vm_compute. reflexivity.
  - vm_compute. reflexivity.
  - vm_compute. reflexivity.
Qed.

(** C3, amended.  A modification event on a file whose extension is in the
    allow-set, handled by a handler with the one-second delay whose recorded
    time is the initial 0 or a float of 1 or more (as it is in every state
    the program reaches).  The time of the event is what [time.time()]
    returns.  If it is more than one second past the last accepted event,
    the change is printed, the handler records the time of the event and the
    callback runs exactly once; if it is one second or less past it, nothing
    happens: nothing is printed, the recorded time and the program state
    stay. *)
Theorem on_modified_debounce (cb : M State unit) (e : FileSystemEvent)
    (h : ReloadHandler) (s : State) :
  is_directory e = false ->
  Str.lower (Path.suffix (src_path e)) ∈ relevant_extensions ->
  debounce_delay h = 1%Q ->
  timestamp_ok (last_restart h) ->
  ((1 < now s - last_restart h)%Q ->
     let s1 := snd (print (MsgFileChanged (Path.name (src_path e))) s) in
     on_modified cb e (h, s) =
       (fst (cb s1), (mkHandler (now s) 1, snd (cb s1)))) /\
  ((now s - last_restart h <= 1)%Q ->
     on_modified cb e (h, s) = (Done tt, (h, s))).
Proof.
  intros Hdir Hext Hdelay Hok.
  rewrite on_modified_qualifying by done.
  unfold debounced, accepted. split.
  - intros Hlt. rewrite (debounce_test_true h s Hdelay Hok Hlt).
    by rewrite Hdelay.
  - intros Hle. by rewrite (debounce_test_false h s Hdelay Hle).
Qed.

Lemma on_modified_debounce_witness :
  is_directory index_html = false /\
  Str.lower (Path.suffix (src_path index_html)) ∈ relevant_extensions /\
  debounce_delay ReloadHandler_init = 1%Q /\
  timestamp_ok (last_restart ReloadHandler_init) /\
  (1 < now (at_time (5 # 2) one_second_in)
       - last_restart ReloadHandler_init)%Q /\
  (now one_second_in - last_restart ReloadHandler_init <= 1)%Q /\
  (last_restart
     (fst (snd (on_modified restart_server index_html
                  (ReloadHandler_init, at_time (5 # 2) one_second_in))))
   == 5 # 2)%Q /\
  on_modified restart_server index_html (ReloadHandler_init, one_second_in)
    = (Done tt, (ReloadHandler_init, one_second_in)).
Proof.
  assert (Hext : Str.lower (Path.suffix (src_path index_html))
                   ∈ relevant_extensions)
    by (apply (bool_decide_unpack _); vm_compute; exact I).
  assert (Hok : timestamp_ok (last_restart ReloadHandler_init))
    by (left; reflexivity).
  assert (Hlt : (1 < now (at_time (5 # 2) one_second_in)
                     - last_restart ReloadHandler_init)%Q)
    by (vm_compute; reflexivity).
  assert (Hle : (now one_second_in
                   - last_restart ReloadHandler_init <= 1)%Q)
    by (vm_compute; discriminate).
  split; [reflexivity|]. split; [exact Hext|]. split; [reflexivity|].
  split; [exact Hok|]. split; [exact Hlt|]. split; [exact Hle|]. split.
  - rewrite (proj1 (on_modified_debounce restart_server index_html
                      ReloadHandler_init (at_time (5 # 2) one_second_in)
                      eq_refl Hext eq_refl Hok) Hlt).
    vm_compute. reflexivity.
  - exact (proj2 (on_modified_debounce restart_server index_html
                    ReloadHandler_init one_second_in
                    eq_refl Hext eq_refl Hok) Hle).
Defined.

(** C8.  An event on a directory, or on a file whose extension (compared as
    the handler compares it, in lower case) is not in the allow-set, does
    nothing whatever the clock reads: [on_modified], and [dispatch] for any
    kind of event, return with the recorded time and the program state
    unchanged, so no restart is triggered. *)
Theorem on_modified_ignores_irrelevant (cb : M State unit)
    (e : FileSystemEvent) (h : ReloadHandler) (s : State) :
  is_directory e = true \/
  Str.lower (Path.suffix (src_path e)) ∉ relevant_extensions ->
  on_modified cb e (h, s) = (Done tt, (h, s)) /\
  dispatch cb e (h, s) = (Done tt, (h, s)).
Proof.
  intros H.
  assert (Hm : on_modified cb e (h, s) = (Done tt, (h, s))).
  { destruct H as [Hdir|Hext].
    - by apply on_modified_directory.
    - by apply on_modified_other_extension. }
  split; [done|]. unfold dispatch. by destruct (kind e).
Qed.

Lemma on_modified_ignores_irrelevant_witness :
  (is_directory logo_png = true \/
   Str.lower (Path.suffix (src_path logo_png)) ∉ relevant_extensions) /\
  on_modified restart_server logo_png (ReloadHandler_init, at_time 2 one_second_in)
    = (Done tt, (ReloadHandler_init, at_time 2 one_second_in)) /\
  dispatch restart_server logo_png (ReloadHandler_init, at_time 2 one_second_in)
    = (Done tt, (ReloadHandler_init, at_time 2 one_second_in)).
Proof.
  assert (H : is_directory logo_png = true \/
              Str.lower (Path.suffix (src_path logo_png)) ∉ relevant_extensions)
    by (right; apply (bool_decide_unpack _); vm_compute; exact I).
  split; [exact H|].
  exact (on_modified_ignores_irrelevant restart_server logo_png
           ReloadHandler_init (at_time 2 one_second_in) H).
Defined.

(** C9.  Extensions are matched without regard to case.  If the extension
    of [e'] is the lower-case form of that of [e] and is in the allow-set,
    the handler treats [e] exactly as it treats [e']: the same debounce
    decision, the same recorded time, the callback run or not run alike;
    only the file name printed is each event's own. *)
Theorem extension_match_ignores_case (cb : M State unit)
    (e e' : FileSystemEvent) (h : ReloadHandler) (s : State) :
  is_directory e = false ->
  is_directory e' = false ->
  Path.suffix (src_path e') = Str.lower (Path.suffix (src_path e)) ->
  Path.suffix (src_path e') ∈ relevant_extensions ->
  on_modified cb e (h, s) = debounced cb (Path.name (src_path e)) h s /\
  on_modified cb e' (h, s) = debounced cb (Path.name (src_path e')) h s.
Proof.
  intros Hdir Hdir' Hlow Hin. split.
  - apply on_modified_qualifying; [done|]. by rewrite <- Hlow.
  - apply on_modified_qualifying; [done|]. by rewrite lower_allowed.
Qed.

Lemma extension_match_ignores_case_witness :
  is_directory INDEX_HTML = false /\
  is_directory index_html = false /\
  Path.suffix (src_path index_html)
    = Str.lower (Path.suffix (src_path INDEX_HTML)) /\
  Path.suffix (src_path index_html) ∈ relevant_extensions /\
  on_modified restart_server INDEX_HTML
      (ReloadHandler_init, at_time 2 one_second_in)
    = debounced restart_server "INDEX.Html" ReloadHandler_init
        (at_time 2 one_second_in) /\
  on_modified restart_server index_html
      (ReloadHandler_init, at_time 2 one_second_in)
    = debounced restart_server "index.html" ReloadHandler_init
        (at_time 2 one_second_in).
Proof.
  assert (Hin : Path.suffix (src_path index_html) ∈ relevant_extensions)
    by (apply (bool_decide_unpack _); vm_compute; exact I).
  split; [reflexivity|]. split; [reflexivity|]. split; [reflexivity|].
  split; [exact Hin|].
  exact (extension_match_ignores_case restart_server INDEX_HTML index_html
           ReloadHandler_init (at_time 2 one_second_in)
           eq_refl eq_refl eq_refl Hin).
Defined.

(** C10.  Creation and deletion events reach only the methods the handler
    inherits, which do nothing: [dispatch] returns with the recorded time
    and the program state unchanged, and the observer delivering such an
    event leaves the whole program as it was. *)
Theorem only_modified_events_restart (cb : M State unit)
    (e : FileSystemEvent) (h : ReloadHandler) (s : State) :
  kind e = Created \/ kind e = Deleted ->
  dispatch cb e (h, s) = (Done tt, (h, s)) /\
  observer_deliver cb e s = (Done tt, s).
Proof.
  intros Hk.
  assert (Hd : forall h', dispatch cb e (h', s) = (Done tt, (h', s))).
  { intros h'. unfold dispatch. by destruct Hk as [-> | ->]. }
  split; [apply Hd|]. by apply observer_deliver_ignored.
Qed.

Lemma only_modified_events_restart_witness :
  (kind index_created = Created \/ kind index_created = Deleted) /\
  dispatch restart_server index_created
      (ReloadHandler_init, at_time 2 one_second_in)
    = (Done tt, (ReloadHandler_init, at_time 2 one_second_in)) /\
  observer_deliver restart_server index_created (at_time 2 one_second_in)
    = (Done tt, at_time 2 one_second_in).
Proof.
  split; [left; reflexivity|].
  exact (only_modified_events_restart restart_server index_created
           ReloadHandler_init (at_time 2 one_second_in)
           (or_introl eq_refl)).
Defined.

(** ** Reachable states and the single-process invariant *)

Section Keeps.

Variable P : State -> Prop.

Lemma keeps_ret {A} (a : A) : keeps P (ret a).
Proof. by intros s. Qed.

Lemma keeps_gets {A} (f : State -> A) : keeps P (gets f).
Proof. by intros s. Qed.

Lemma keeps_raise {A} (e : exn) : keeps P (@raise State A e).
Proof. by intros s. Qed.

Lemma keeps_modify (f : State -> State) :
  (forall s, P s -> P (f s)) -> keeps P (modify f).
Proof. intros Hf s Hs. by apply Hf. Qed.

Lemma keeps_bind {A B} (m : M State A) (k : A -> M State B) :
  keeps P m -> (forall a, keeps P (k a)) -> keeps P (m ≫= k).
Proof.
  intros Hm Hk s Hs. unfold mbind, M_bind, bind.
  specialize (Hm s Hs). destruct (m s) as [[a|e|] s']; simpl in *; auto.
  by apply Hk.
Qed.

Lemma keeps_try_except {A} (body : M State A) handler :
  keeps P body ->
  (forall e h, handler e = Some h -> keeps P h) ->
  keeps P (try_except body handler).
Proof.
  intros Hb Hh s Hs. unfold try_except.
  specialize (Hb s Hs). destruct (body s) as [[a|e|] s']; simpl in *; auto.
  destruct (handler e) as [h|] eqn:He; auto.
  by apply (Hh e h He).
Qed.

Lemma keeps_for_each {A} (xs : list A) (body : A -> M State unit) :
  (forall x, keeps P (body x)) -> keeps P (for_each xs body).
Proof.
  intros Hb. induction xs as [|x xs IH]; simpl.
  - apply keeps_ret.
  - apply keeps_bind; auto.
Qed.

End Keeps.

Lemma keeps_observer_start (P : State -> Prop) :
  (forall f s, P s -> P (update_observer f s)) -> keeps P observer_start.
Proof.
  intros H. unfold observer_start.
  apply keeps_bind; [apply keeps_gets|]. intros ws.
  apply keeps_bind; [apply keeps_gets|]. intros err.
  destruct ws, err; try apply keeps_raise; apply keeps_modify; intros ?; apply H.
Qed.

(** The invariant reads the process table, the call counter and the handle
    only. *)
Lemma inv_same_procs s s' :
  procs (os s') = procs (os s) ->
  popen_calls (os s') = popen_calls (os s) ->
  server_process (dev s') = server_process (dev s) ->
  inv s -> inv s'.
Proof.
  unfold inv, handles_ok, one_active, live_at. intros -> -> ->. tauto.
Qed.

Lemma inv_set_os_console f s :
  inv s -> inv (set_os (fun w => set_console (f w) w) s).
Proof. by apply inv_same_procs. Qed.

Lemma inv_set_os_clock f s :
  inv s -> inv (set_os (fun w => set_clock (f w) w) s).
Proof. by apply inv_same_procs. Qed.

Lemma inv_set_observer o s : inv s -> inv (set_observer o s).
Proof. by apply inv_same_procs. Qed.

Lemma inv_update_observer f s : inv s -> inv (update_observer f s).
Proof. by apply inv_same_procs. Qed.

Lemma inv_set_sigint d s : inv s -> inv (set_os (set_sigint d) s).
Proof. by apply inv_same_procs. Qed.

Lemma keeps_print m : keeps inv (print m).
Proof. apply keeps_modify. intros s. apply inv_set_os_console. Qed.

Lemma keeps_time_sleep d : keeps inv (time_sleep d).
Proof. apply keeps_modify. intros s. apply inv_set_os_clock. Qed.

Lemma keeps_stop_server : keeps inv stop_server.
Proof.
  intros s [Hh Ho]. pose proof (stop_server_stopped_from s) as Hst. split.
  - by apply (stopped_from_handles_ok s).
  - by apply (stopped_from_one_active s).
Qed.

Lemma keeps_start_server : keeps inv start_server.
Proof.
  intros s [Hh Ho]. destruct (start_server_spec s) as (s' & -> & Hst). split.
  - by apply (started_from_handles_ok s).
  - by apply (started_from_one_active s).
Qed.

Lemma keeps_restart_server : keeps inv restart_server.
Proof.
  intros s [Hh Ho]. destruct (restart_server_spec s) as (s' & -> & Hst). split.
  - by apply (started_from_handles_ok s).
  - by apply (started_from_one_active s).
Qed.

Lemma keeps_observer_deliver e : keeps inv (observer_deliver restart_server e).
Proof.
  intros s Hs. unfold observer_deliver.
  destruct (observer (dev s)) as [o|]; [|done].
  destruct (thread o); try done.
  destruct (watches o); [done|].
  assert (Hd : inv (snd (snd (dispatch restart_server e (event_handler o, s))))).
  { unfold dispatch. destruct (kind e); try done.
    destruct (on_modified_cases restart_server e (event_handler o) s)
      as [-> | ->]; [done|].
    unfold accepted. simpl.
    apply keeps_restart_server. by apply inv_set_os_console. }
  destruct (dispatch restart_server e (event_handler o, s)) as [r [h' s']].
  simpl in Hd.
  destruct r; simpl; repeat apply inv_update_observer; done.
Qed.

Lemma keeps_start_file_watcher : keeps inv start_file_watcher.
Proof.
  unfold start_file_watcher.
  apply keeps_bind; [apply keeps_modify; intros s; apply inv_set_observer|].
  intros _. apply keeps_bind.
  - apply keeps_for_each. intros x. apply keeps_bind; [apply keeps_gets|].
    intros [|]; [|apply keeps_ret].
    apply keeps_bind; [|intros _; apply keeps_print].
    apply keeps_modify. intros s. apply inv_update_observer.
  - intros _. apply keeps_observer_start. intros f s. apply inv_update_observer.
Qed.

Lemma keeps_deliver_SIGINT : keeps inv deliver_SIGINT.
Proof.
  unfold deliver_SIGINT. apply keeps_bind; [apply keeps_gets|].
  intros [|]; [apply keeps_raise|].
  unfold signal_handler. apply keeps_bind; [apply keeps_print|].
  intros _. apply keeps_raise.
Qed.

Lemma keeps_main_loop inputs : keeps inv (main_loop inputs).
Proof.
  induction inputs as [|[d|e|] rest IH]; simpl.
  - by intros s.
  - apply keeps_bind; [apply keeps_time_sleep | done].
  - apply keeps_bind; [apply keeps_observer_deliver | done].
  - apply keeps_bind; [apply keeps_deliver_SIGINT | done].
Qed.

Lemma keeps_late_inputs inputs : keeps inv (late_inputs inputs).
Proof.
  induction inputs as [|[d|e|] rest IH]; simpl.
  - apply keeps_ret.
  - apply keeps_bind; [apply keeps_time_sleep | done].
  - apply keeps_bind; [apply keeps_observer_deliver | done].
  - apply keeps_bind; [apply keeps_deliver_SIGINT | done].
Qed.

Lemma keeps_observer_join : keeps inv observer_join.
Proof.
  intros s Hs. unfold observer_join.
  destruct (observer (dev s)) as [o|]; [|done].
  destruct (thread o); simpl; try done; by apply inv_update_observer.
Qed.

Lemma keeps_run inputs : keeps inv (run inputs).
Proof.
  unfold run.
  repeat (apply keeps_bind;
          [first [ apply keeps_print | apply keeps_start_server
                 | apply keeps_start_file_watcher | apply keeps_gets ]
          | intros ?]).
  apply keeps_bind.
  { apply keeps_try_except; [apply keeps_main_loop|].
    intros [] h Hh; try discriminate Hh. injection Hh as <-.
    apply keeps_print. }
  intros _. apply keeps_bind; [apply keeps_late_inputs|].
  intros _. apply keeps_bind; [apply keeps_gets|]. intros o.
  apply keeps_bind.
  { destruct o; [|apply keeps_ret].
    apply keeps_bind; [|intros _; apply keeps_observer_join].
    apply keeps_modify. intros s. apply inv_update_observer. }
  intros _. apply keeps_bind; [apply keeps_stop_server|].
  intros _. apply keeps_print.
Qed.

Lemma inv_init p env paths : inv (mkState (DevServer_init p) (boot env paths)).
Proof.
  split.
  - split; simpl.
    + intros k [c Hc]. by rewrite lookup_empty in Hc.
    + intros h Hh. discriminate Hh.
  - intros k Hk. unfold live_at in Hk. simpl in Hk.
    by rewrite lookup_empty in Hk.
Qed.

Lemma inv_child_exit s h c :
  procs (os s) !! h = Some c ->
  inv s -> inv (set_os (set_procs <[h:=Child Exited (exit_delay c)]>) s).
Proof.
  intros Hc [[Hb Hh] Ho]. split; [split|]; simpl.
  - intros k Hk. apply Hb.
    destruct (decide (h = k)) as [<-|Hne]; [eauto|].
    by rewrite lookup_insert_ne in Hk.
  - intros h' Hh'. apply Hh in Hh'.
    destruct (decide (h = h')) as [<-|Hne].
    + rewrite lookup_insert_eq. eauto.
    + by rewrite lookup_insert_ne.
  - intros k Hk. apply Ho. unfold live_at in *. simpl in Hk.
    destruct (decide (h = k)) as [<-|Hne].
    + by rewrite lookup_insert_eq in Hk.
    + by rewrite lookup_insert_ne in Hk.
Qed.

Lemma reachable_inv s : reachable s -> inv s.
Proof.
  induction 1.
  - apply inv_init.
  - by apply keeps_start_server.
  - by apply keeps_stop_server.
  - by apply keeps_restart_server.
  - by apply keeps_start_file_watcher.
  - by apply keeps_observer_deliver.
  - by apply keeps_run.
  - by apply keeps_time_sleep.
  - by apply inv_set_sigint.
  - by apply (inv_same_procs s).
  - by apply inv_child_exit.
Qed.

(** Whatever the script has done by the time the interpreter stops or waits
    for more input is a reachable state. *)
Lemma python_reachable inputs env paths :
  reachable (snd (python inputs (boot env paths))).
Proof.
  assert (H : reachable (snd (script inputs (boot env paths)))).
  { unfold script.
    apply reach_run.
    apply (reach_signal (mkState (DevServer_init 8081) (boot env paths))).
    apply reach_init. }
  unfold python. destruct (script inputs (boot env paths)) as [[a|[]|] s];
    exact H.
Qed.

(** After a (re)start of a state in which at most the held child is alive,
    the only child that can be alive is the new one. *)
Lemma started_from_only_new s s' k :
  one_active s -> started_from s s' ->
  live_at k s' = true ->
  server_process (dev s') = Some k /\ k = popen_calls (os s).
Proof.
  intros Hone Hst Hk.
  pose proof (started_from_one_active s s' Hone Hst k Hk) as Hheld.
  split; [done|].
  unfold started_from in Hst.
  destruct (popen_env _ _); destruct Hst as (_ & _ & Hnew & _).
  - congruence.
  - congruence.
Qed.

(** C5.  In every reachable state the only child that can be alive is the
    one whose handle the supervisor holds, so at most one is.  [stop_server]
    leaves no child alive; [start_server] is [stop_server] followed by a
    start from STOPPED; [restart_server] calls [start_server] in a state
    (after the stop, with its bounded wait and kill, and the pause) in
    which no child is alive; and after either, the only child that can be
    alive is the one just spawned. *)
Theorem at_most_one_server_process (s : State) :
  reachable s ->
  (forall k, live_at k s = true -> server_process (dev s) = Some k) /\
  (forall k1 k2, live_at k1 s = true -> live_at k2 s = true -> k1 = k2) /\
  quiet (snd (stop_server s)) /\
  start_server s = start_server (snd (stop_server s)) /\
  restart_server s = start_server (restart_midpoint s) /\
  quiet (restart_midpoint s) /\
  (forall k, live_at k (snd (start_server s)) = true ->
     server_process (dev (snd (start_server s))) = Some k /\
     k = popen_calls (os s)) /\
  (forall k, live_at k (snd (restart_server s)) = true ->
     server_process (dev (snd (restart_server s))) = Some k /\
     k = popen_calls (os s)).
Proof.
  intros Hr. destruct (reachable_inv s Hr) as [Hh Ho].
  split; [exact Ho|]. split.
  { intros k1 k2 H1 H2. apply Ho in H1, H2. congruence. }
  split.
  { apply (stopped_from_quiet s); [done|apply stop_server_stopped_from]. }
  split; [apply start_server_stop_first|].
  split; [apply restart_server_midpoint|].
  split.
  { apply (stopped_from_quiet s); [done|apply restart_midpoint_stopped_from]. }
  split.
  - intros k. destruct (start_server_spec s) as (s' & -> & Hst).
    by apply started_from_only_new.
  - intros k. destruct (restart_server_spec s) as (s' & -> & Hst).
    by apply started_from_only_new.
Qed.

Lemma at_most_one_server_process_witness :
  reachable (serving (always_spawns well_behaved)) /\
  live_at 0 (serving (always_spawns well_behaved)) = true /\
  server_process (dev (serving (always_spawns well_behaved))) = Some 0 /\
  quiet (snd (stop_server (serving (always_spawns well_behaved)))).
Proof.
  assert (Hr : reachable (serving (always_spawns well_behaved)))
    by (apply reach_start, reach_init).
  split; [exact Hr|]. split; [reflexivity|].
  destruct (at_most_one_server_process _ Hr) as (Hheld & _ & Hquiet & _).
  split; [apply Hheld; reflexivity | exact Hquiet].
Defined.

(** ** The watcher *)

Lemma bind_Done {A B} (m : M State A) (k : A -> M State B) s a s' :
  m s = (Done a, s') -> (m ≫= k) s = k a s'.
Proof. intros H. unfold mbind, M_bind, bind. by rewrite H. Qed.

(** One turn of the loop of [start_file_watcher]. *)
Lemma schedule_one x s o :
  observer (dev s) = Some o ->
  (there ← path_exists x;
   if (there : bool)
   then observer_schedule x ;; print (MsgWatching x)
   else ret tt) s
  = (Done tt, watching o (found_on s [x]) s).
Proof.
  intros Ho. unfold found_on. rewrite filter_cons, filter_nil.
  unfold mbind, M_bind, bind, path_exists, gets, observer_schedule, print,
    modify, ret, watching.
  destruct s as [[p sp ob] [pr pc pe ck co od sg ie]]. simpl in *. subst ob.
  destruct o as [eh ws th].
  destruct (decide (x ∈ od)) as [Hx|Hx].
  - rewrite (bool_decide_eq_true_2 _ Hx).
    unfold set_os, set_observer, set_console, update_observer. simpl.
    by rewrite ?decide_True by done.
  - rewrite (bool_decide_eq_false_2 _ Hx).
    unfold set_os, set_observer, set_console, update_observer. simpl.
    rewrite ?decide_False by done. simpl. by rewrite !app_nil_r.
Qed.

Lemma schedule_loop paths s o :
  observer (dev s) = Some o ->
  for_each paths (fun path =>
    there ← path_exists path;
    if (there : bool)
    then observer_schedule path ;; print (MsgWatching path)
    else ret tt) s
  = (Done tt, watching o (found_on s paths) s).
Proof.
  revert s o. induction paths as [|x paths IH]; intros s o Ho.
  - simpl. unfold ret, watching, found_on. rewrite filter_nil. simpl.
    destruct s as [[p sp ob] w]. simpl in *. subst ob.
    destruct o, w. unfold set_os, set_observer, set_console. simpl.
    by rewrite !app_nil_r.
  - cbn [for_each].
    rewrite (bind_Done _ _ s tt _ (schedule_one x s o Ho)).
    erewrite IH; [|reflexivity].
    f_equal. unfold watching, found_on.
    rewrite (filter_cons _ x paths), filter_cons, filter_nil.
    destruct s as [[p sp ob] [pr pc pe ck co od sg ie]]. simpl in *. subst ob.
    destruct o as [eh ws th].
    unfold set_os, set_observer, set_console. simpl.
    destruct (decide (x ∈ od)) as [Hx|Hx];
      [rewrite ?decide_True by done | rewrite ?decide_False by done];
      simpl; by rewrite <- ?app_assoc, ?app_nil_r.
Qed.

(** What [start_file_watcher] makes of a state: the new observer with its
    watches, and its thread started unless the system refuses the watches,
    in which case the [OSError] of [observer.start()] comes out. *)
Lemma start_file_watcher_result (s : State) :
  start_file_watcher s =
    match found_on s watch_candidates, inotify_error (os s) with
    | _ :: _, Some msg =>
        (Raised (OSError msg),
         watching (mkObserver ReloadHandler_init [] Unstarted)
           (found_on s watch_candidates) s)
    | _, _ =>
        (Done tt,
         watching (mkObserver ReloadHandler_init [] Alive)
           (found_on s watch_candidates) s)
    end.
Proof.
  unfold start_file_watcher.
  unfold mbind at 1, M_bind, bind, modify.
  unfold mbind at 1, M_bind, bind.
  erewrite schedule_loop; [|reflexivity].
  change ["."; "src"; "public"; "css"; "js"] with watch_candidates.
  assert (Hf : found_on (set_observer
                 (Some (mkObserver ReloadHandler_init [] Unstarted)) s)
                 watch_candidates = found_on s watch_candidates) by done.
  rewrite Hf.
  unfold observer_start, mbind, M_bind, bind, gets, raise, modify, watching.
  simpl.
  destruct s as [[p sp ob] w]. destruct w.
  unfold set_os, set_observer, set_console, update_observer. simpl.
  destruct (found_on _ _); [reflexivity|].
  by destruct inotify_error0.
Qed.

Lemma start_file_watcher_state (s : State) :
  exists th,
    snd (start_file_watcher s) =
      watching (mkObserver ReloadHandler_init [] th)
        (found_on s watch_candidates) s.
Proof.
  rewrite start_file_watcher_result.
  destruct (found_on s watch_candidates); [by exists Alive|].
  destruct (inotify_error (os s)); [by exists Unstarted | by exists Alive].
Qed.

Lemma watchable_same (w w' : World) :
  inotify_error w' = inotify_error w ->
  on_disk w' = on_disk w ->
  watchable w -> watchable w'.
Proof. unfold watchable. by intros -> ->. Qed.

Lemma start_file_watcher_started (s : State) :
  watchable (os s) ->
  start_file_watcher s =
    (Done tt,
     watching (mkObserver ReloadHandler_init [] Alive)
       (found_on s watch_candidates) s).
Proof.
  intros Hw. rewrite start_file_watcher_result. unfold found_on.
  destruct Hw as [-> | ->]; [|done].
  by destruct (filter _ _).
Qed.

Lemma start_file_watcher_refused (s : State) (msg : string) :
  inotify_error (os s) = Some msg ->
  found_on s watch_candidates <> [] ->
  start_file_watcher s =
    (Raised (OSError msg),
     watching (mkObserver ReloadHandler_init [] Unstarted)
       (found_on s watch_candidates) s).
Proof.
  intros Herr Hf. rewrite start_file_watcher_result, Herr.
  by destruct (found_on _ _).
Qed.

(** ** The interrupt *)

Lemma observer_deliver_Done e s :
  fst (observer_deliver restart_server e s) = Done tt /\
  sigint (os (snd (observer_deliver restart_server e s))) = sigint (os s).
Proof.
  unfold observer_deliver.
  destruct (observer (dev s)) as [o|]; [|done].
  destruct (thread o); try done.
  destruct (watches o); [done|].
  assert (Hd : exists h' s',
    dispatch restart_server e (event_handler o, s) = (Done tt, (h', s')) /\
    sigint (os s') = sigint (os s)).
  { unfold dispatch. destruct (kind e); try (by eexists _, _).
    destruct (on_modified_cases restart_server e (event_handler o) s)
      as [-> | ->]; [by eexists _, _|].
    unfold accepted.
    destruct (restart_server_spec
                (snd (print (MsgFileChanged (Path.name (src_path e))) s)))
      as (s' & -> & _ & [] & _).
    by eexists _, _. }
  destruct Hd as (h' & s' & -> & Hsig). by simpl.
Qed.

(** Without a signal the main loop does not return; a SIGINT met with the
    script's [signal_handler] installed makes it raise [SystemExit(0)],
    with one more line on the console and nothing else changed. *)
Lemma main_loop_interrupted pre post s :
  Sigint ∉ pre ->
  sigint (os s) = installed_signal_handler ->
  fst (main_loop pre s) = Pending /\
  main_loop (pre ++ Sigint :: post) s =
    (Raised (SystemExit 0),
     snd (print MsgReceivedInterrupt (snd (main_loop pre s)))).
Proof.
  revert s. induction pre as [|i pre IH]; intros s Hno Hsig.
  - simpl. unfold deliver_SIGINT, signal_handler. py_unfold.
    by rewrite Hsig.
  - apply not_elem_of_cons in Hno as [Hi Hno].
    destruct i as [d|e|]; [| |done]; simpl; unfold mbind, M_bind, bind.
    + simpl. by apply IH.
    + destruct (observer_deliver_Done e s) as [Hdone Hsame].
      destruct (observer_deliver restart_server e s) as [r s'].
      simpl in *. subst r. apply IH; [done|congruence].
Qed.

(** What [run] does on a SIGINT when the script's handler is installed and
    the watcher could start: before the signal it is in its loop; the
    signal makes it raise [SystemExit(0)] out of the loop and out of [run],
    past the clean-up: the state it leaves is the one it was in, with the
    handler's line printed. *)
Lemma run_interrupted pre post s :
  Sigint ∉ pre ->
  sigint (os s) = installed_signal_handler ->
  watchable (os s) ->
  fst (run pre s) = Pending /\
  run (pre ++ Sigint :: post) s =
    (Raised (SystemExit 0), snd (print MsgReceivedInterrupt (snd (run pre s)))).
Proof.
  intros Hno Hsig Hw.
  unfold run. unfold mbind, M_bind, bind, print, modify, gets. simpl.
  match goal with |- context [start_server ?x] =>
    destruct (start_server_spec x) as (s1 & Hs1 & Hst1) end.
  rewrite Hs1. destruct Hst1 as (_ & [_ _ _ Hdisk Hsig1 Hino] & _).
  rewrite (start_file_watcher_started s1)
    by (by apply (watchable_same (os s))).
  simpl in *. unfold try_except.
  match goal with |- context [main_loop pre ?x] =>
    destruct (main_loop_interrupted pre post x Hno ltac:(simpl; congruence))
      as [Hp Hi] end.
  rewrite Hi.
  match goal with |- context [main_loop pre ?x] =>
    destruct (main_loop pre x) as [r s3] end.
  simpl in *. subst r. done.
Qed.

(** The script, interrupted: the interpreter exits with code 0 in the state
    the program was in just before the signal, plus the handler's line.
    The observer is not stopped or joined and [stop_server] is not
    called. *)
Lemma python_interrupted pre post w :
  Sigint ∉ pre ->
  watchable w ->
  fst (python pre w) = StillRunning /\
  python (pre ++ Sigint :: post) w =
    (Exit 0, snd (print MsgReceivedInterrupt (snd (python pre w)))).
Proof.
  intros Hno Hw. unfold python, script.
  match goal with |- context [run pre ?x] =>
    destruct (run_interrupted pre post x Hno eq_refl Hw) as [Hp ->];
    destruct (run pre x) as [r s'] end.
  simpl in *. by subst r.
Qed.

(** The clean-up of [run] does what C1 asks for when it is reached: under
    Python's default SIGINT disposition the interrupt is a
    [KeyboardInterrupt], [run] catches it, stops and joins the observer,
    stops the server and returns. *)
Lemma keyboard_interrupt_cleans_up :
  exists s,
    run [Sigint] (mkState (DevServer_init 8081) dev_machine) = (Done tt, s) /\
    thread <$> observer (dev s) = Some Joined /\
    server_process (dev s) = None /\
    status_at 0 s = Some Exited /\
    last (console (os s)) = Some MsgDevServerStopped.
Proof.
  eexists. split; [vm_compute; reflexivity|].
  vm_compute. by repeat split.
Qed.

(** C1, on the code.  The script installs [signal_handler] for SIGINT
    before it calls [run], so the interrupt raises [SystemExit(0)], which
    [except KeyboardInterrupt] does not catch.  Run on [dev_machine] and
    interrupted right after start-up, the script exits with code 0 with the
    observer thread still alive (never stopped, never joined), the
    supervisor still holding its handle and the child still running; the
    last line printed is the handler's. *)
Theorem interrupt_skips_cleanup :
  exists s,
    python [Sigint] dev_machine = (Exit 0, s) /\
    thread <$> observer (dev s) = Some Alive /\
    server_process (dev s) = Some 0 /\
    status_at 0 s = Some Running /\
    last (console (os s)) = Some MsgReceivedInterrupt.
Proof.
  eexists. split; [vm_compute; reflexivity|].
  vm_compute. by repeat split.
Qed.

(** * Further properties *)

(** ** The children the supervisor does not hold *)

Lemma stop_server_untouched s k :
  server_process (dev s) <> Some k ->
  procs (os (snd (stop_server s))) !! k = procs (os s) !! k.
Proof.
  intros Hk. unfold stop_server. py_unfold.
  destruct (server_process (dev s)) as [h|] eqn:Hh; simpl; [|done].
  assert (h <> k) by congruence.
  unfold wait; simpl. rewrite lookup_alter_eq.
  destruct (procs (os s) !! h) as [[st d]|] eqn:Hc; simpl.
  - destruct st, d as [d|]; simpl; try destruct (Qle_bool d 5); simpl;
      by rewrite ?lookup_insert_ne, ?lookup_alter_ne by done.
  - by rewrite ?lookup_alter_ne by done.
Qed.

(** X2.  [stop_server] called a second time does nothing: stopping is
    idempotent. *)
Theorem stop_server_idempotent (s : State) :
  stop_server (snd (stop_server s)) = (Done tt, snd (stop_server s)).
Proof.
  apply stop_server_None.
  apply (stopped_handle s), stop_server_stopped_from.
Qed.

(** X3.  The supervisor signals no child but the one it holds:
    [stop_server] leaves every other entry of the process table as it was,
    and so do [start_server] and [restart_server], apart from the entry of
    the child they spawn. *)
Theorem supervisor_touches_only_held_child (s : State) (k : nat) :
  server_process (dev s) <> Some k ->
  procs (os (snd (stop_server s))) !! k = procs (os s) !! k /\
  (k <> popen_calls (os s) ->
     procs (os (snd (start_server s))) !! k = procs (os s) !! k /\
     procs (os (snd (restart_server s))) !! k = procs (os s) !! k).
Proof.
  intros Hk. split; [by apply stop_server_untouched|].
  intros Hn. split.
  - rewrite start_server_stop_first.
    pose proof (stop_server_stopped_from s) as Hst.
    rewrite (start_server_stopped _ (stopped_handle _ _ Hst)). simpl.
    rewrite <- (stop_server_untouched s k Hk).
    destruct (popen_env _ _); simpl; [|done].
    rewrite lookup_insert_ne; [done|]. by rewrite (stopped_calls _ _ Hst).
  - rewrite restart_server_midpoint.
    pose proof (restart_midpoint_stopped_from s) as Hst.
    assert (Hmid : procs (os (restart_midpoint s)) !! k = procs (os s) !! k).
    { exact (stop_server_untouched (snd (print MsgRestarting s)) k Hk). }
    remember (restart_midpoint s) as m.
    rewrite (start_server_stopped _ (stopped_handle _ _ Hst)). simpl.
    rewrite <- Hmid.
    destruct (popen_env _ _); simpl; [|done].
    rewrite lookup_insert_ne; [done|]. by rewrite (stopped_calls _ _ Hst).
Qed.

(** With two children running and the second one held: stopping, starting
    and restarting end the second and leave the first running. *)
Lemma supervisor_touches_only_held_child_witness :
  server_process (dev two_children) <> Some 0 /\
  0 <> popen_calls (os two_children) /\
  procs (os two_children) !! 0 = Some stubborn /\
  status_at 1 (snd (stop_server two_children)) = Some Exited /\
  procs (os (snd (stop_server two_children))) !! 0 = Some stubborn /\
  procs (os (snd (start_server two_children))) !! 0 = Some stubborn /\
  procs (os (snd (restart_server two_children))) !! 0 = Some stubborn.
Proof.
  assert (H : server_process (dev two_children) <> Some 0)
    by (vm_compute; discriminate).
  assert (Hn : 0 <> popen_calls (os two_children))
    by (vm_compute; discriminate).
  assert (H0 : procs (os two_children) !! 0 = Some stubborn)
    by (vm_compute; reflexivity).
  destruct (supervisor_touches_only_held_child two_children 0 H)
    as [Hstop Hrest].
  destruct (Hrest Hn) as [Hstart Hrestart].
  split; [exact H|]. split; [exact Hn|]. split; [exact H0|].
  split; [vm_compute; reflexivity|].
  split; [exact (eq_trans Hstop H0)|].
  split; [exact (eq_trans Hstart H0) | exact (eq_trans Hrestart H0)].
Defined.

(** X4.  When the child the supervisor holds is already gone,
    [stop_server] sends no signal that changes anything and does not wait:
    it clears the handle and leaves the process table and the clock as they
    were. *)
Theorem stop_server_dead_child (s : State) (h : nat) (c : child) :
  server_process (dev s) = Some h ->
  procs (os s) !! h = Some c ->
  live c = false ->
  exists s',
    stop_server s = (Done tt, s') /\
    server_process (dev s') = None /\
    procs (os s') = procs (os s) /\
    clock (os s') = clock (os s).
Proof.
  intros Hh Hc Hl. unfold stop_server. py_unfold. rewrite Hh. simpl.
  unfold wait. simpl. rewrite lookup_alter_eq, Hc. simpl.
  assert (Hsame : alter sigterm h (procs (os s)) = procs (os s)).
  { apply map_eq. intros k. destruct (decide (h = k)) as [<-|Hne].
    - rewrite lookup_alter_eq, Hc. simpl. f_equal.
      destruct c as [[] d]; done.
    - by rewrite lookup_alter_ne. }
  destruct c as [[] d]; try discriminate Hl; simpl;
    (eexists; split; [reflexivity|]; simpl; by rewrite Hsame).
Qed.

Lemma stop_server_dead_child_witness :
  server_process (dev (serving (always_spawns crashed))) = Some 0 /\
  procs (os (serving (always_spawns crashed))) !! 0 = Some crashed /\
  live crashed = false /\
  exists s',
    stop_server (serving (always_spawns crashed)) = (Done tt, s') /\
    server_process (dev s') = None /\
    procs (os s') = procs (os (serving (always_spawns crashed))) /\
    clock (os s') = clock (os (serving (always_spawns crashed))).
Proof.
  split; [reflexivity|]. split; [reflexivity|]. split; [reflexivity|].
  apply (stop_server_dead_child
           (serving (always_spawns crashed)) 0 crashed); reflexivity.
Defined.

(** X5.  [start_server] and [restart_server] call [Popen] exactly once each,
    whether it succeeds or fails, and [stop_server] never calls it: there is
    no retry. *)
Theorem one_spawn_attempt_per_start (s : State) :
  popen_calls (os (snd (stop_server s))) = popen_calls (os s) /\
  popen_calls (os (snd (start_server s))) = S (popen_calls (os s)) /\
  popen_calls (os (snd (restart_server s))) = S (popen_calls (os s)).
Proof.
  split; [apply stopped_calls, stop_server_stopped_from|]. split.
  - by destruct (start_server_spec s) as (s' & -> & ? & _).
  - by destruct (restart_server_spec s) as (s' & -> & ? & _).
Qed.

(** ** What the watcher registers *)

(** X7.  [start_file_watcher] puts a new observer in place of whatever was
    there, with a new handler, watching exactly those of the five candidate
    directories that exist, in the order of the list; a missing directory
    is skipped without a word or an error.  One line is printed per
    directory watched, and the server side of the state (handle, children,
    [Popen] count, clock) is untouched.  It returns with the observer thread
    started when the watches can be set up; when the system refuses them,
    the [OSError] of [observer.start()] comes out of it and the thread is
    not started. *)
Theorem start_file_watcher_registers (s : State) :
  (watchable (os s) ->
     fst (start_file_watcher s) = Done tt /\
     observer (dev (snd (start_file_watcher s))) =
       Some (mkObserver ReloadHandler_init
               (filter (fun p => p ∈ on_disk (os s))
                       ["."; "src"; "public"; "css"; "js"])
               Alive)) /\
  (forall msg,
     inotify_error (os s) = Some msg ->
     filter (fun p => p ∈ on_disk (os s))
            ["."; "src"; "public"; "css"; "js"] <> [] ->
     fst (start_file_watcher s) = Raised (OSError msg) /\
     observer (dev (snd (start_file_watcher s))) =
       Some (mkObserver ReloadHandler_init
               (filter (fun p => p ∈ on_disk (os s))
                       ["."; "src"; "public"; "css"; "js"])
               Unstarted)) /\
  console (os (snd (start_file_watcher s))) =
    (console (os s) ++
     (MsgWatching <$> filter (fun p => p ∈ on_disk (os s))
                        ["."; "src"; "public"; "css"; "js"]))%list /\
  server_process (dev (snd (start_file_watcher s))) = server_process (dev s) /\
  procs (os (snd (start_file_watcher s))) = procs (os s) /\
  popen_calls (os (snd (start_file_watcher s))) = popen_calls (os s) /\
  clock (os (snd (start_file_watcher s))) = clock (os s).
Proof.
  split; [|split].
  - intros Hw. by rewrite (start_file_watcher_started s Hw).
  - intros msg Herr Hf. by rewrite (start_file_watcher_refused s msg Herr Hf).
  - destruct (start_file_watcher_state s) as [th ->]. by repeat split.
Qed.

Lemma start_file_watcher_registers_witness :
  watchable dev_machine /\
  inotify_error out_of_watches = Some "inotify watch limit reached" /\
  filter (fun p => p ∈ on_disk out_of_watches)
         ["."; "src"; "public"; "css"; "js"] <> [] /\
  start_file_watcher (mkState (DevServer_init 8081) dev_machine)
    = (Done tt,
       snd (start_file_watcher (mkState (DevServer_init 8081) dev_machine))) /\
  observer (dev (snd (start_file_watcher
                        (mkState (DevServer_init 8081) dev_machine))))
    = Some (mkObserver ReloadHandler_init ["."; "src"] Alive) /\
  fst (start_file_watcher (mkState (DevServer_init 8081) out_of_watches))
    = Raised (OSError "inotify watch limit reached") /\
  observer (dev (snd (start_file_watcher
                        (mkState (DevServer_init 8081) out_of_watches))))
    = Some (mkObserver ReloadHandler_init ["."; "src"] Unstarted).
Proof.
  assert (Hw : watchable dev_machine) by (left; reflexivity).
  assert (Hf : filter (fun p => p ∈ on_disk out_of_watches)
                 ["."; "src"; "public"; "css"; "js"] <> [])
    by (vm_compute; discriminate).
  destruct (start_file_watcher_registers
              (mkState (DevServer_init 8081) dev_machine))
    as (Hstart & _).
  destruct (start_file_watcher_registers
              (mkState (DevServer_init 8081) out_of_watches))
    as (_ & Hrefuse & _).
  destruct (Hstart Hw) as [Hd Ho].
  destruct (Hrefuse _ eq_refl Hf) as [Hr Ho'].
  split; [exact Hw|]. split; [reflexivity|]. split; [exact Hf|].
  split; [by rewrite <- Hd; destruct (start_file_watcher _)|].
  split; [by rewrite Ho; vm_compute|].
  split; [exact Hr|].
  by rewrite Ho'; vm_compute.
Defined.

(** ** The main loop and the clean-up *)

(** An event delivered to the handler neither ends the observer thread nor
    changes the SIGINT disposition. *)
Lemma observer_deliver_frame e s :
  fst (observer_deliver restart_server e s) = Done tt /\
  sigint (os (snd (observer_deliver restart_server e s))) = sigint (os s) /\
  thread <$> observer (dev (snd (observer_deliver restart_server e s)))
    = thread <$> observer (dev s).
Proof.
  unfold observer_deliver.
  destruct (observer (dev s)) as [o|] eqn:Ho; [|by simpl; rewrite ?Ho].
  destruct (thread o) eqn:Ht; try (by simpl; rewrite ?Ho; simpl; rewrite ?Ht).
  destruct (watches o); [by simpl; rewrite ?Ho; simpl; rewrite ?Ht|].
  assert (Hd : exists h' s',
    dispatch restart_server e (event_handler o, s) = (Done tt, (h', s')) /\
    sigint (os s') = sigint (os s) /\ observer (dev s') = Some o).
  { unfold dispatch. destruct (kind e); try (by eexists _, _).
    destruct (on_modified_cases restart_server e (event_handler o) s)
      as [-> | ->]; [by eexists _, _|].
    unfold accepted.
    destruct (restart_server_spec
                (snd (print (MsgFileChanged (Path.name (src_path e))) s)))
      as (s' & -> & _ & [] & _).
    eexists _, _. split; [reflexivity|]. simpl in *. split; congruence. }
  destruct Hd as (h' & s' & -> & Hsig & Ho'). simpl.
  unfold update_observer. rewrite Ho'. simpl. by rewrite Ht.
Qed.

Lemma main_loop_waits pre s :
  Sigint ∉ pre ->
  fst (main_loop pre s) = Pending /\
  sigint (os (snd (main_loop pre s))) = sigint (os s) /\
  thread <$> observer (dev (snd (main_loop pre s)))
    = thread <$> observer (dev s).
Proof.
  revert s. induction pre as [|i pre IH]; intros s Hno; [done|].
  apply not_elem_of_cons in Hno as [Hi Hno].
  destruct i as [d|e|]; [| |done]; simpl; unfold mbind, M_bind, bind.
  - simpl. by destruct (IH (snd (time_sleep d s)) Hno) as (? & ? & ?).
  - destruct (observer_deliver_frame e s) as (Hdone & Hsig & Hth).
    destruct (observer_deliver restart_server e s) as [r s'].
    simpl in *. subst r.
    destruct (IH s' Hno) as (? & ? & ?). repeat split; congruence.
Qed.

(** The first SIGINT ends the loop with whatever its delivery raises. *)
Lemma main_loop_signal pre post s :
  Sigint ∉ pre ->
  main_loop (pre ++ Sigint :: post) s = deliver_SIGINT (snd (main_loop pre s)).
Proof.
  revert s. induction pre as [|i pre IH]; intros s Hno.
  - simpl. unfold deliver_SIGINT, signal_handler. py_unfold. simpl.
    by destruct (sigint (os s)).
  - apply not_elem_of_cons in Hno as [Hi Hno].
    destruct i as [d|e|]; [| |done]; simpl; unfold mbind, M_bind, bind.
    + simpl. by apply IH.
    + destruct (observer_deliver_frame e s) as (Hdone & _).
      destruct (observer_deliver restart_server e s) as [r s'].
      simpl in *. subst r. by apply IH.
Qed.

Lemma after_signal_first pre post :
  Sigint ∉ pre -> after_signal (pre ++ Sigint :: post) = post.
Proof.
  induction pre as [|i pre IH]; intros Hno; [done|].
  apply not_elem_of_cons in Hno as [Hi Hno].
  destruct i; [| |done]; simpl; by apply IH.
Qed.

(** Without a further signal, what arrives after the loop is dealt with and
    the main thread goes on. *)
Lemma late_inputs_frame post s :
  Sigint ∉ post ->
  fst (late_inputs post s) = Done tt /\
  sigint (os (snd (late_inputs post s))) = sigint (os s) /\
  thread <$> observer (dev (snd (late_inputs post s)))
    = thread <$> observer (dev s).
Proof.
  revert s. induction post as [|i post IH]; intros s Hno; [done|].
  apply not_elem_of_cons in Hno as [Hi Hno].
  destruct i as [d|e|]; [| |done]; simpl; unfold mbind, M_bind, bind.
  - simpl. by destruct (IH (snd (time_sleep d s)) Hno) as (? & ? & ?).
  - destruct (observer_deliver_frame e s) as (Hdone & Hsig & Hth).
    destruct (observer_deliver restart_server e s) as [r s'].
    simpl in *. subst r.
    destruct (IH s' Hno) as (? & ? & ?). repeat split; congruence.
Qed.

Lemma late_inputs_signal post rest s :
  Sigint ∉ post ->
  late_inputs (post ++ Sigint :: rest) s
    = deliver_SIGINT (snd (late_inputs post s)).
Proof.
  revert s. induction post as [|i post IH]; intros s Hno.
  - simpl. unfold deliver_SIGINT, signal_handler. py_unfold. simpl.
    by destruct (sigint (os s)).
  - apply not_elem_of_cons in Hno as [Hi Hno].
    destruct i as [d|e|]; [| |done]; simpl; unfold mbind, M_bind, bind.
    + simpl. by apply IH.
    + destruct (observer_deliver_frame e s) as (Hdone & _).
      destruct (observer_deliver restart_server e s) as [r s'].
      simpl in *. subst r. by apply IH.
Qed.


(** The start-up of [run]: the banner, [start_server], and the watcher.
    When the watches can be set up it reaches the loop with the observer
    thread alive and the SIGINT disposition it started with. *)
Lemma run_startup (s : State) :
  watchable (os s) ->
  exists s0,
    (forall inputs, run inputs s = loop_and_cleanup inputs s0) /\
    (inv s -> inv s0) /\
    sigint (os s0) = sigint (os s) /\
    thread <$> observer (dev s0) = Some Alive.
Proof.
  intros Hw.
  unfold run, loop_and_cleanup, cleanup.
  unfold mbind, M_bind, bind, print, modify, gets. simpl.
  match goal with |- context [start_server ?x] =>
    pose proof (keeps_start_server x) as Hk;
    destruct (start_server_spec x)
      as (s1 & Hs1 & _ & [_ _ _ Hdisk Hsig1 Hino] & _) end.
  rewrite Hs1 in *.
  rewrite (start_file_watcher_started s1)
    by (by apply (watchable_same (os s))).
  simpl in *.
  eexists. split; [intros inputs; reflexivity|]. simpl. split; [|by split].
  intros Hinv. apply (inv_same_procs s1); try done.
  apply Hk. by apply (inv_same_procs s).
Qed.

Lemma run_waits (pre : list input) (s : State) :
  Sigint ∉ pre ->
  watchable (os s) ->
  fst (run pre s) = Pending /\
  thread <$> observer (dev (snd (run pre s))) = Some Alive.
Proof.
  intros Hno Hw.
  destruct (run_startup s Hw) as (s0 & Hrun & _ & _ & Hth). rewrite Hrun.
  unfold loop_and_cleanup, mbind, M_bind, bind, try_except.
  destruct (main_loop_waits pre s0 Hno) as (Hp & _ & Hth').
  destruct (main_loop pre s0) as [r s1]. simpl in *. subst r.
  split; [done|]. exact (eq_trans Hth' Hth).
Qed.

(** The clean-up, reached with the observer thread alive: the thread is
    stopped and joined, the server stopped, the last line printed. *)
Lemma cleanup_spec (s : State) :
  inv s ->
  thread <$> observer (dev s) = Some Alive ->
  exists s',
    cleanup s = (Done tt, s') /\
    thread <$> observer (dev s') = Some Joined /\
    server_process (dev s') = None /\
    quiet s' /\
    last (console (os s')) = Some MsgDevServerStopped.
Proof.
  intros Hinv Hth.
  unfold cleanup, mbind, M_bind, bind, gets, print, modify. simpl.
  destruct (observer (dev s)) as [o|] eqn:Ho; [|discriminate Hth].
  simpl in Hth. injection Hth as Hth.
  unfold observer_stop, observer_join, update_observer, modify. simpl.
  rewrite Ho. simpl. rewrite Hth. simpl.
  match goal with |- context [stop_server ?x] =>
    assert (Hinv4 : inv x) by (by apply (inv_same_procs s));
    pose proof (stop_server_stopped_from x) as Hst;
    destruct (stop_server_spec x) as (s5 & Hs5 & _) end.
  rewrite Hs5 in *. simpl in Hst.
  eexists. split; [reflexivity|]. simpl.
  pose proof (stopped_from_quiet _ s5 (proj2 Hinv4) Hst) as Hquiet.
  destruct Hst as [Hnone _ [_ Hobs _ _ _ _] _ _].
  repeat split.
  - simpl in *. by rewrite Hobs.
  - done.
  - intros k. exact (Hquiet k).
  - apply last_snoc.
Qed.


Lemma no_signal_before_save : Sigint ∉ save_after_two_seconds.
Proof.
  unfold save_after_two_seconds. intros H.
  repeat (apply elem_of_cons in H as [H|H]; [discriminate H|]).
  by apply elem_of_nil in H.
Qed.

(** X8.  When the watches can be set up, [run] does not return until a
    SIGINT arrives, and the observer thread is alive all along: no file
    event, no restart and no failure to spawn the server, at start-up or
    later, ends the program or the watching. *)
Theorem run_waits_for_signal (pre : list input) (s : State) :
  Sigint ∉ pre ->
  watchable (os s) ->
  fst (run pre s) = Pending /\
  thread <$> observer (dev (snd (run pre s))) = Some Alive.
Proof.
  intros Hno Hw. destruct (run_waits pre s Hno Hw) as [Hp Hth].
  split; assumption.
Qed.

(** On a machine where [Popen] always fails: the page saved after two
    seconds is accepted and the server is tried a second time, in vain, and
    [run] is still waiting. *)
Lemma run_waits_for_signal_witness :
  (Sigint ∉ save_after_two_seconds) /\
  watchable (os (idle never_spawns)) /\
  fst (run save_after_two_seconds (idle never_spawns)) = Pending /\
  thread <$> observer (dev (snd (run save_after_two_seconds (idle never_spawns))))
    = Some Alive /\
  popen_calls (os (snd (run save_after_two_seconds (idle never_spawns)))) = 2.
Proof.
  assert (Hw : watchable (os (idle never_spawns))) by (left; reflexivity).
  destruct (run_waits_for_signal save_after_two_seconds (idle never_spawns)
              no_signal_before_save Hw) as [Hp Hth].
  split; [exact no_signal_before_save|]. split; [exact Hw|].
  split; [exact Hp|]. split; [exact Hth|].
  vm_compute. reflexivity.
Defined.

(** X9.  [run] under Python's own SIGINT disposition, that is, called
    without the handler the script installs, and with the watcher started:
    the first SIGINT is a [KeyboardInterrupt], [run] catches it and, when no
    second signal arrives, returns normally after its clean-up, with the
    observer thread stopped and joined, the handle cleared, no child alive,
    and its last line printed, whatever events and restarts came before or
    after the signal. *)
Theorem run_cleans_up_on_keyboard_interrupt
    (pre post : list input) (s : State) :
  sigint (os s) = default_int_handler ->
  Sigint ∉ pre ->
  Sigint ∉ post ->
  watchable (os s) ->
  inv s ->
  exists s',
    run (pre ++ Sigint :: post) s = (Done tt, s') /\
    thread <$> observer (dev s') = Some Joined /\
    server_process (dev s') = None /\
    quiet s' /\
    last (console (os s')) = Some MsgDevServerStopped.
Proof.
  intros Hsig Hno Hnp Hw Hinv.
  destruct (run_startup s Hw) as (s0 & Hrun & Hinv0 & Hsig0 & Hth0).
  rewrite Hrun.
  specialize (Hinv0 Hinv).
  unfold loop_and_cleanup. rewrite (after_signal_first pre post Hno).
  unfold mbind, M_bind, bind, try_except.
  rewrite (main_loop_signal pre post s0 Hno).
  pose proof (keeps_main_loop pre s0 Hinv0) as Hinv1.
  destruct (main_loop_waits pre s0 Hno) as (_ & Hsig1 & Hth1).
  destruct (main_loop pre s0) as [r s1]. simpl in *.
  unfold deliver_SIGINT, gets, raise, mbind, M_bind, bind.
  rewrite Hsig1, Hsig0, Hsig. simpl.
  unfold print, modify. simpl.
  match goal with |- context [late_inputs post ?x] =>
    assert (Hinv2 : inv x) by (by apply (inv_same_procs s1));
    pose proof (keeps_late_inputs post x Hinv2) as Hinv3;
    destruct (late_inputs_frame post x Hnp) as (Hd & _ & Hth3);
    destruct (late_inputs post x) as [r3 s3] end.
  simpl in *. subst r3.
  apply cleanup_spec; [done|].
  exact (eq_trans Hth3 (eq_trans Hth1 Hth0)).
Qed.

(** The page is saved two seconds in, and again two seconds after the
    signal: the server is restarted both times, and the clean-up stops the
    third child. *)
Lemma run_cleans_up_on_keyboard_interrupt_witness :
  sigint (os (idle (always_spawns well_behaved))) = default_int_handler /\
  (Sigint ∉ save_after_two_seconds) /\
  watchable (os (idle (always_spawns well_behaved))) /\
  inv (idle (always_spawns well_behaved)) /\
  popen_calls
    (os (snd (run (save_after_two_seconds ++ Sigint :: save_after_two_seconds)
                (idle (always_spawns well_behaved))))) = 3 /\
  exists s',
    run (save_after_two_seconds ++ Sigint :: save_after_two_seconds)
        (idle (always_spawns well_behaved)) = (Done tt, s') /\
    thread <$> observer (dev s') = Some Joined /\
    server_process (dev s') = None /\
    quiet s' /\
    last (console (os s')) = Some MsgDevServerStopped.
Proof.
  assert (Hinv : inv (idle (always_spawns well_behaved)))
    by (split; [apply handles_ok_idle | apply one_active_idle]).
  assert (Hw : watchable (os (idle (always_spawns well_behaved))))
    by (left; reflexivity).
  split; [reflexivity|]. split; [exact no_signal_before_save|].
  split; [exact Hw|]. split; [exact Hinv|].
  split; [vm_compute; reflexivity|].
  exact (run_cleans_up_on_keyboard_interrupt
           save_after_two_seconds save_after_two_seconds
           (idle (always_spawns well_behaved))
           eq_refl no_signal_before_save no_signal_before_save Hw Hinv).
Defined.

(** X10.  The script as it is run, with [signal_handler] installed and the
    watcher started: the first SIGINT ends it with exit status 0 whatever
    happened before, and the handler does nothing but print its line.  The
    [DevServer] object (handle and observer), the process table and the
    clock are those of the moment of the signal, and the observer thread is
    still alive. *)
Theorem script_interrupt_changes_nothing (pre : list input) (w : World) :
  Sigint ∉ pre ->
  watchable w ->
  exists s,
    python (pre ++ [Sigint]) w = (Exit 0, s) /\
    dev s = dev (snd (python pre w)) /\
    procs (os s) = procs (os (snd (python pre w))) /\
    clock (os s) = clock (os (snd (python pre w))) /\
    console (os s)
      = (console (os (snd (python pre w))) ++ [MsgReceivedInterrupt])%list /\
    thread <$> observer (dev s) = Some Alive.
Proof.
  intros Hno Hw.
  destruct (python_interrupted pre [] w Hno Hw) as [_ ->].
  eexists. split; [reflexivity|]. simpl. repeat split.
  unfold python, script.
  match goal with |- context [run pre ?x] =>
    destruct (run_waits pre x Hno Hw) as [Hp Hth];
    destruct (run pre x) as [r s'] end.
  simpl in *. by subst r.
Qed.

(** On [dev_machine], with the page saved two seconds in and the server
    restarted for it: the second child is the one left running. *)
Lemma script_interrupt_changes_nothing_witness :
  (Sigint ∉ save_after_two_seconds) /\
  watchable dev_machine /\
  popen_calls
    (os (snd (python (save_after_two_seconds ++ [Sigint]) dev_machine))) = 2 /\
  status_at 1 (snd (python (save_after_two_seconds ++ [Sigint]) dev_machine))
    = Some Running /\
  exists s,
    python (save_after_two_seconds ++ [Sigint]) dev_machine = (Exit 0, s) /\
    dev s = dev (snd (python save_after_two_seconds dev_machine)) /\
    procs (os s) = procs (os (snd (python save_after_two_seconds dev_machine))) /\
    clock (os s) = clock (os (snd (python save_after_two_seconds dev_machine))) /\
    console (os s)
      = (console (os (snd (python save_after_two_seconds dev_machine)))
         ++ [MsgReceivedInterrupt])%list /\
    thread <$> observer (dev s) = Some Alive.
Proof.
  assert (Hw : watchable dev_machine) by (left; reflexivity).
  split; [exact no_signal_before_save|]. split; [exact Hw|].
  split; [vm_compute; reflexivity|]. split; [vm_compute; reflexivity|].
  exact (script_interrupt_changes_nothing save_after_two_seconds
           dev_machine no_signal_before_save Hw).
Defined.

(** ** The handler the observer holds *)

(** When [on_modified] does anything, its comparison came out true. *)
Lemma on_modified_verdict cb e h s :
  on_modified cb e (h, s) = (Done tt, (h, s)) \/
  (Qgt_bool (Float64.sub (now s) (last_restart h)) (debounce_delay h) = true /\
   on_modified cb e (h, s) = accepted cb (Path.name (src_path e)) h s).
Proof.
  destruct (is_directory e) eqn:Hdir.
  { left. by apply on_modified_directory. }
  destruct (decide (Str.lower (Path.suffix (src_path e)) ∈ relevant_extensions))
    as [Hin|Hout].
  - rewrite on_modified_qualifying by done. unfold debounced.
    destruct (Qgt_bool _ _); auto.
  - left. by apply on_modified_other_extension.
Qed.

Lemma handler_ok_same_observer s s' :
  observer (dev s') = observer (dev s) -> handler_ok s -> handler_ok s'.
Proof. unfold handler_ok. by intros ->. Qed.

Lemma handler_ok_update_thread f s :
  (forall o, event_handler (f o) = event_handler o) ->
  handler_ok s -> handler_ok (update_observer f s).
Proof.
  intros Hf Hs o. unfold update_observer. simpl.
  destruct (observer (dev s)) as [o0|] eqn:Ho; simpl; [|done].
  intros [= <-]. rewrite Hf. by apply Hs.
Qed.

Lemma keeps_handler_print m : keeps handler_ok (print m).
Proof. apply keeps_modify. intros s. by apply handler_ok_same_observer. Qed.

Lemma keeps_handler_time_sleep d : keeps handler_ok (time_sleep d).
Proof. apply keeps_modify. intros s. by apply handler_ok_same_observer. Qed.

Lemma keeps_handler_stop_server : keeps handler_ok stop_server.
Proof.
  intros s. apply handler_ok_same_observer.
  apply (stopped_frame s), stop_server_stopped_from.
Qed.

Lemma keeps_handler_start_server : keeps handler_ok start_server.
Proof.
  intros s. apply handler_ok_same_observer.
  by destruct (start_server_spec s) as (s' & -> & _ & [] & _).
Qed.

Lemma keeps_handler_restart_server : keeps handler_ok restart_server.
Proof.
  intros s. apply handler_ok_same_observer.
  by destruct (restart_server_spec s) as (s' & -> & _ & [] & _).
Qed.

Lemma keeps_handler_start_file_watcher : keeps handler_ok start_file_watcher.
Proof.
  intros s _. destruct (start_file_watcher_state s) as [th ->]. simpl.
  intros o [= <-]. simpl. split; [reflexivity|]. by left.
Qed.

(** The time the handler records when it accepts an event is a float
    above 1. *)
Lemma keeps_handler_observer_deliver e :
  keeps handler_ok (observer_deliver restart_server e).
Proof.
  intros s Hs. unfold observer_deliver.
  destruct (observer (dev s)) as [o|] eqn:Ho; [|done].
  destruct (thread o); try done.
  destruct (watches o); [done|].
  assert (Hd : exists r h' s',
    dispatch restart_server e (event_handler o, s) = (r, (h', s')) /\
    (debounce_delay h' = 1%Q /\ timestamp_ok (last_restart h')) /\
    observer (dev s') = Some o).
  { destruct (Hs o Ho) as [H1 Hok].
    unfold dispatch. destruct (kind e); try (by eexists _, _, _).
    destruct (on_modified_verdict restart_server e (event_handler o) s)
      as [-> | [Hacc ->]]; [by eexists _, _, _|].
    unfold accepted.
    destruct (restart_server_spec
                (snd (print (MsgFileChanged (Path.name (src_path e))) s)))
      as (s' & -> & _ & [] & _).
    eexists _, _, _. split; [reflexivity|]. simpl in *.
    split; [|congruence]. split; [done|]. right.
    split; [apply now_is_binary64|].
    apply Qlt_le_weak.
    apply (accepted_time_above_one (event_handler o) s H1); [|done].
    by apply timestamp_ok_nonneg. }
  destruct Hd as (r & h' & s' & -> & Hh' & Ho').
  assert (Hw : handler_ok
    (update_observer (fun o' => mkObserver h' (watches o') (thread o')) s')).
  { intros o1. unfold update_observer. simpl. rewrite Ho'. simpl.
    by intros [= <-]. }
  destruct r; simpl; try done.
  by apply handler_ok_update_thread.
Qed.

Lemma keeps_handler_deliver_SIGINT : keeps handler_ok deliver_SIGINT.
Proof.
  unfold deliver_SIGINT. apply keeps_bind; [apply keeps_gets|].
  intros [|]; [apply keeps_raise|].
  unfold signal_handler. apply keeps_bind; [apply keeps_handler_print|].
  intros _. apply keeps_raise.
Qed.

Lemma keeps_handler_main_loop inputs : keeps handler_ok (main_loop inputs).
Proof.
  induction inputs as [|[d|e|] rest IH]; simpl.
  - by intros s.
  - apply keeps_bind; [apply keeps_handler_time_sleep | done].
  - apply keeps_bind; [apply keeps_handler_observer_deliver | done].
  - apply keeps_bind; [apply keeps_handler_deliver_SIGINT | done].
Qed.

Lemma keeps_handler_late_inputs inputs : keeps handler_ok (late_inputs inputs).
Proof.
  induction inputs as [|[d|e|] rest IH]; simpl.
  - apply keeps_ret.
  - apply keeps_bind; [apply keeps_handler_time_sleep | done].
  - apply keeps_bind; [apply keeps_handler_observer_deliver | done].
  - apply keeps_bind; [apply keeps_handler_deliver_SIGINT | done].
Qed.

Lemma keeps_handler_run inputs : keeps handler_ok (run inputs).
Proof.
  unfold run.
  repeat (apply keeps_bind;
          [first [ apply keeps_handler_print | apply keeps_handler_start_server
                 | apply keeps_handler_start_file_watcher | apply keeps_gets ]
          | intros ?]).
  apply keeps_bind.
  { apply keeps_try_except; [apply keeps_handler_main_loop|].
    intros [] h Hh; try discriminate Hh. injection Hh as <-.
    apply keeps_handler_print. }
  intros _. apply keeps_bind; [apply keeps_handler_late_inputs|].
  intros _. apply keeps_bind; [apply keeps_gets|]. intros o.
  apply keeps_bind.
  { destruct o; [|apply keeps_ret].
    apply keeps_bind.
    - apply keeps_modify. intros s. apply handler_ok_update_thread.
      intros o0. by destruct (thread o0).
    - intros _ s Hs. unfold observer_join.
      destruct (observer (dev s)) as [o0|]; [|done].
      destruct (thread o0); simpl; try done; by apply handler_ok_update_thread. }
  intros _. apply keeps_bind; [apply keeps_handler_stop_server|].
  intros _. apply keeps_handler_print.
Qed.

(** In every state the program reaches the handler is as [__init__] and
    the accepted events have made it. *)
Lemma reachable_handler_ok (s : State) : reachable s -> handler_ok s.
Proof.
  induction 1.
  - intros o Ho. discriminate Ho.
  - by apply keeps_handler_start_server.
  - by apply keeps_handler_stop_server.
  - by apply keeps_handler_restart_server.
  - by apply keeps_handler_start_file_watcher.
  - by apply keeps_handler_observer_deliver.
  - by apply keeps_handler_run.
  - by apply keeps_handler_time_sleep.
  - by apply (handler_ok_same_observer s).
  - by apply (handler_ok_same_observer s).
  - by apply (handler_ok_same_observer s).
Qed.

(** The recorded time is one of those [timestamp_ok] allows wherever the
    program can get to: the restriction of the amended C3 leaves out no run
    of the program. *)
Lemma reachable_timestamp_ok (s : State) (o : Observer) :
  reachable s ->
  observer (dev s) = Some o ->
  timestamp_ok (last_restart (event_handler o)).
Proof. intros Hr Ho. by destruct (reachable_handler_ok s Hr o Ho). Qed.

(** X11.  The debounce delay is set to one second in [__init__] and nothing
    ever writes it again: in every reachable state the handler the observer
    holds has a delay of exactly 1, whatever events it has handled. *)
Theorem debounce_delay_stays_one (s : State) (o : Observer) :
  reachable s ->
  observer (dev s) = Some o ->
  debounce_delay (event_handler o) = 1%Q.
Proof. intros Hr Ho. by destruct (reachable_handler_ok s Hr o Ho). Qed.

Lemma debounce_delay_stays_one_witness :
  reachable watcher_started /\
  observer (dev watcher_started)
    = Some (mkObserver ReloadHandler_init ["."; "src"] Alive) /\
  debounce_delay
    (event_handler (mkObserver ReloadHandler_init ["."; "src"] Alive)) = 1%Q.
Proof.
  assert (Hr : reachable watcher_started) by (apply reach_watch, reach_init).
  assert (Ho : observer (dev watcher_started)
               = Some (mkObserver ReloadHandler_init ["."; "src"] Alive))
    by (vm_compute; reflexivity).
  split; [exact Hr|]. split; [exact Ho|].
  exact (debounce_delay_stays_one watcher_started _ Hr Ho).
Defined.

(** X12.  The debounce as the running program has it.  In every reachable
    state, a modification of a file with an allowed extension that the
    observer's handler is given is accepted, with the time recorded and the
    callback run once, when [time.time()] is more than a second past the
    recorded time, and dropped when it is a second or less past it: in
    these states the float subtraction of the handler decides as the exact
    difference would. *)
Theorem debounce_in_reachable_states (cb : M State unit)
    (e : FileSystemEvent) (s : State) (o : Observer) :
  reachable s ->
  observer (dev s) = Some o ->
  is_directory e = false ->
  Str.lower (Path.suffix (src_path e)) ∈ relevant_extensions ->
  ((1 < now s - last_restart (event_handler o))%Q ->
     let s1 := snd (print (MsgFileChanged (Path.name (src_path e))) s) in
     on_modified cb e (event_handler o, s) =
       (fst (cb s1), (mkHandler (now s) 1, snd (cb s1)))) /\
  ((now s - last_restart (event_handler o) <= 1)%Q ->
     on_modified cb e (event_handler o, s) = (Done tt, (event_handler o, s))).
Proof.
  intros Hr Ho Hdir Hext.
  destruct (reachable_handler_ok s Hr o Ho) as [Hdelay Hok].
  rewrite on_modified_qualifying by done.
  unfold debounced, accepted. split.
  - intros Hlt. rewrite (debounce_test_true _ s Hdelay Hok Hlt).
    by rewrite Hdelay.
  - intros Hle. by rewrite (debounce_test_false _ s Hdelay Hle).
Qed.

Lemma debounce_in_reachable_states_witness :
  reachable saved_once /\
  reachable (snd (time_sleep 1 saved_once)) /\
  observer (dev saved_once) = Some saved_once_observer /\
  observer (dev (snd (time_sleep 1 saved_once))) = Some saved_once_observer /\
  is_directory index_html = false /\
  Str.lower (Path.suffix (src_path index_html)) ∈ relevant_extensions /\
  (now saved_once - last_restart (event_handler saved_once_observer) <= 1)%Q /\
  (1 < now (snd (time_sleep 1 saved_once))
       - last_restart (event_handler saved_once_observer))%Q /\
  on_modified restart_server index_html
      (event_handler saved_once_observer, saved_once)
    = (Done tt, (event_handler saved_once_observer, saved_once)) /\
  last_restart
    (fst (snd (on_modified restart_server index_html
                 (event_handler saved_once_observer,
                  snd (time_sleep 1 saved_once)))))
    = now (snd (time_sleep 1 saved_once)).
Proof.
  assert (Hr : reachable saved_once) by apply python_reachable.
  assert (Hr' : reachable (snd (time_sleep 1 saved_once)))
    by (by apply reach_elapse).
  assert (Ho : observer (dev saved_once) = Some saved_once_observer)
    by (vm_compute; reflexivity).
  assert (Ho' : observer (dev (snd (time_sleep 1 saved_once)))
                = Some saved_once_observer)
    by (vm_compute; reflexivity).
  assert (Hext : Str.lower (Path.suffix (src_path index_html))
                   ∈ relevant_extensions)
    by (apply (bool_decide_unpack _); vm_compute; exact I).
  assert (Hle : (now saved_once
                 - last_restart (event_handler saved_once_observer) <= 1)%Q)
    by (vm_compute; discriminate).
  assert (Hlt : (1 < now (snd (time_sleep 1 saved_once))
                     - last_restart (event_handler saved_once_observer))%Q)
    by (vm_compute; reflexivity).
  split; [exact Hr|]. split; [exact Hr'|]. split; [exact Ho|].
  split; [exact Ho'|]. split; [reflexivity|]. split; [exact Hext|].
  split; [exact Hle|]. split; [exact Hlt|]. split.
  - exact (proj2 (debounce_in_reachable_states restart_server index_html
                    saved_once saved_once_observer Hr Ho eq_refl Hext) Hle).
  - rewrite (proj1 (debounce_in_reachable_states restart_server index_html
                      (snd (time_sleep 1 saved_once)) saved_once_observer
                      Hr' Ho' eq_refl Hext) Hlt).
    reflexivity.
Defined.

(** ** What [run] does not handle *)

(** X13.  When the system refuses the watches, the [OSError] of
    [observer.start()] goes through [start_file_watcher] and [run], which
    catch nothing at that point, and ends the script with a traceback and
    exit status 1, whatever the inputs.  By then [start_server] has run:
    the child it spawned is left as it was spawned, with nothing stopping
    it; the observer thread was never started. *)
Theorem watcher_failure_ends_script
    (inputs : list input) (w : World) (msg : string) (c : child) :
  inotify_error w = Some msg ->
  filter (fun p => p ∈ on_disk w) watch_candidates <> [] ->
  popen_env w (popen_calls w) = Spawned c ->
  exists s,
    python inputs w = (Exit 1, s) /\
    thread <$> observer (dev s) = Some Unstarted /\
    server_process (dev s) = Some (popen_calls w) /\
    procs (os s) !! popen_calls w = Some c.
Proof.
  intros Herr Hf Hspawn.
  unfold python, script, run.
  unfold mbind, M_bind, bind, print, modify, gets. simpl.
  match goal with |- context [start_server ?x] =>
    destruct (start_server_spec x)
      as (s1 & Hs1 & _ & [_ _ _ Hdisk Hsig1 Hino] & Hst) end.
  rewrite Hs1. simpl in *. rewrite Hspawn in Hst.
  destruct Hst as (Hh & Hc & _).
  rewrite (start_file_watcher_refused s1 msg); simpl.
  - eexists. split; [reflexivity|]. by simpl.
  - congruence.
  - unfold found_on. by rewrite Hdisk.
Qed.

Lemma watcher_failure_ends_script_witness :
  inotify_error out_of_watches = Some "inotify watch limit reached" /\
  filter (fun p => p ∈ on_disk out_of_watches) watch_candidates <> [] /\
  popen_env out_of_watches (popen_calls out_of_watches)
    = Spawned well_behaved /\
  exists s,
    python [Sigint] out_of_watches = (Exit 1, s) /\
    thread <$> observer (dev s) = Some Unstarted /\
    server_process (dev s) = Some (popen_calls out_of_watches) /\
    procs (os s) !! popen_calls out_of_watches = Some well_behaved.
Proof.
  assert (Hf : filter (fun p => p ∈ on_disk out_of_watches) watch_candidates
               <> []) by (vm_compute; discriminate).
  split; [reflexivity|]. split; [exact Hf|]. split; [reflexivity|].
  exact (watcher_failure_ends_script [Sigint] out_of_watches
           "inotify watch limit reached" well_behaved eq_refl Hf eq_refl).
Defined.

(** X14.  The clean-up of [run] is not protected: under Python's own SIGINT
    disposition, a second SIGINT that arrives after the first was caught
    and before the clean-up has begun is a [KeyboardInterrupt] that nothing
    catches.  It comes out of [run] with the observer thread alive, neither
    stopped nor joined, and [stop_server] not called. *)
Theorem second_interrupt_skips_cleanup
    (pre post rest : list input) (s : State) :
  sigint (os s) = default_int_handler ->
  Sigint ∉ pre ->
  Sigint ∉ post ->
  watchable (os s) ->
  run (pre ++ Sigint :: post ++ Sigint :: rest) s
    = (Raised KeyboardInterrupt,
       snd (late_inputs post (snd (print MsgShuttingDown (snd (run pre s)))))) /\
  thread <$> observer
               (dev (snd (run (pre ++ Sigint :: post ++ Sigint :: rest) s)))
    = Some Alive.
Proof.
  intros Hsig Hno Hnp Hw.
  destruct (run_startup s Hw) as (s0 & Hrun & _ & Hsig0 & Hth0).
  rewrite !Hrun.
  unfold loop_and_cleanup. rewrite (after_signal_first pre _ Hno).
  unfold mbind, M_bind, bind, try_except.
  rewrite (main_loop_signal pre _ s0 Hno).
  destruct (main_loop_waits pre s0 Hno) as (Hp & Hsig1 & Hth1).
  destruct (main_loop pre s0) as [r s1]. simpl in *. subst r. simpl.
  unfold deliver_SIGINT at 1 2, gets, raise, mbind, M_bind, bind.
  rewrite Hsig1, Hsig0, Hsig. simpl.
  rewrite (late_inputs_signal post rest _ Hnp).
  destruct (late_inputs_frame post (snd (print MsgShuttingDown s1)) Hnp)
    as (Hd & Hsig3 & Hth3).
  unfold deliver_SIGINT, gets, raise, mbind, M_bind, bind.
  simpl in Hsig3. rewrite Hsig3, Hsig1, Hsig0, Hsig. simpl.
  split; [reflexivity|].
  exact (eq_trans Hth3 (eq_trans Hth1 Hth0)).
Qed.

Lemma second_interrupt_skips_cleanup_witness :
  sigint (os (idle (always_spawns well_behaved))) = default_int_handler /\
  (Sigint ∉ save_after_two_seconds) /\
  (Sigint ∉ @nil input) /\
  watchable (os (idle (always_spawns well_behaved))) /\
  fst (run (save_after_two_seconds ++ Sigint :: [] ++ Sigint :: [])
         (idle (always_spawns well_behaved))) = Raised KeyboardInterrupt /\
  thread <$> observer
               (dev (snd (run (save_after_two_seconds
                                 ++ Sigint :: [] ++ Sigint :: [])
                            (idle (always_spawns well_behaved)))))
    = Some Alive /\
  server_process
    (dev (snd (run (save_after_two_seconds ++ Sigint :: [] ++ Sigint :: [])
                 (idle (always_spawns well_behaved))))) = Some 1 /\
  status_at 1
    (snd (run (save_after_two_seconds ++ Sigint :: [] ++ Sigint :: [])
            (idle (always_spawns well_behaved)))) = Some Running.
Proof.
  assert (Hw : watchable (os (idle (always_spawns well_behaved))))
    by (left; reflexivity).
  assert (Hnil : Sigint ∉ @nil input) by apply not_elem_of_nil.
  destruct (second_interrupt_skips_cleanup save_after_two_seconds [] []
              (idle (always_spawns well_behaved))
              eq_refl no_signal_before_save Hnil Hw) as [Hrun Hth].
  split; [reflexivity|]. split; [exact no_signal_before_save|].
  split; [exact Hnil|]. split; [exact Hw|].
  split; [by rewrite Hrun|]. split; [exact Hth|].
  split; vm_compute; reflexivity.
Defined.
